(** * Air density of ERA5 samples: [compute_air_density]

    Shallow embedding of [compute_air_density] from
    [era5-air-density-calc.py] and the properties its specification states.

    Modelling choices.
    - A one-dimensional numpy array is a list of elements tagged with its
      dtype ([int64] or [float64]).
    - A [float64] value is a real number: rounding, infinities and NaN are
      outside the model, and [np.exp] is the real exponential.  Division is
      the field division of [R], so [1 / 0] is [0] here, where the program
      yields an infinity or a NaN; statements about the value of the density
      therefore keep away from [T = 0] or hold on both sides of it.
    - Python objects live in a store addressed by references; a Python
      variable holds a reference, a numpy operation reads its operands and
      returns a new array.
    - An exception is an outcome of the call, next to the returned value.
    - What depends on the rounding of binary64 arithmetic is stated on a
      second embedding of the function, [F64], on Rocq's primitive floats;
      a statement about orders or bounds made on the real-number embedding
      carries bounds on its inputs under which it also holds of the rounded
      computation. *)

From Stdlib Require Floats.
From Stdlib Require Import Reals Lra Lia ZArith List Bool.
Import ListNotations.

Open Scope R_scope.

(** ** Outcomes *)

(** The [raise Exception("... contains negative values ...")] of the function
    is [InvalidInputError], the name the specification gives it;
    [BroadcastError] is the [ValueError] numpy raises when the shapes of two
    operands cannot be broadcast together. *)
Inductive exn : Type :=
| InvalidInputError
| BroadcastError.

Inductive outcome (A : Type) : Type :=
| Returns (a : A)
| Raises (e : exn).

Arguments Returns {A} a.
Arguments Raises {A} e.

(** ** numpy arrays and the operations the function uses *)

Inductive ndarray : Type :=
| Int64 (data : list Z)
| Float64 (data : list R).

(** [a.shape[0]] *)
Definition shape0 (a : ndarray) : nat :=
  match a with
  | Int64 d => length d
  | Float64 d => length d
  end.

(** [a.astype(float)], as the list of its values; it is also the promotion
    numpy applies to an [int64] operand that meets a [float64] one. *)
Definition astype_float (a : ndarray) : list R :=
  match a with
  | Int64 d => map IZR d
  | Float64 d => d
  end.

Definition Rltb (x y : R) : bool :=
  if Rlt_dec x y then true else false.

(** [a < 0]: the boolean mask, computed in the dtype of [a]. *)
Definition less_zero (a : ndarray) : list bool :=
  match a with
  | Int64 d => map (fun z => (z <? 0)%Z) d
  | Float64 d => map (fun x => Rltb x 0) d
  end.

(** [np.any(mask)] *)
Definition np_any (mask : list bool) : bool :=
  existsb (fun b => b) mask.

(** [np.repeat(x, n)] *)
Definition np_repeat (x : R) (n : nat) : list R :=
  repeat x n.

(** [np.exp(a)] *)
Definition np_exp (a : list R) : list R :=
  map exp a.

(** Scalar-with-array arithmetic: [c / a], [a / c], [c * a], [a * c]. *)
Definition scalar_div (c : R) (a : list R) : list R :=
  map (fun x => c / x) a.

Definition div_scalar (a : list R) (c : R) : list R :=
  map (fun x => x / c) a.

Definition scalar_mul (c : R) (a : list R) : list R :=
  map (fun x => c * x) a.

Definition mul_scalar (a : list R) (c : R) : list R :=
  map (fun x => x * c) a.

(** Elementwise combination of two lists of the same length. *)
Fixpoint zip_with (f : R -> R -> R) (a b : list R) : list R :=
  match a, b with
  | x :: a', y :: b' => f x y :: zip_with f a' b'
  | _, _ => []
  end.

(** Array-with-array arithmetic under numpy's broadcasting rule for
    one-dimensional operands: equal lengths combine elementwise, an operand
    of length one is stretched over the other, anything else raises. *)
Definition broadcast (f : R -> R -> R) (a b : list R) : outcome (list R) :=
  if Nat.eqb (length a) (length b) then Returns (zip_with f a b)
  else
    match a, b with
    | [x], _ => Returns (map (fun y => f x y) b)
    | _, [y] => Returns (map (fun x => f x y) a)
    | _, _ => Raises BroadcastError
    end.

Definition multiply : list R -> list R -> outcome (list R) :=
  broadcast Rmult.

Definition subtract : list R -> list R -> outcome (list R) :=
  broadcast Rminus.

(** Sequencing of operations that may raise. *)
Definition and_then {A B : Type} (o : outcome A) (k : A -> outcome B)
  : outcome B :=
  match o with
  | Returns a => k a
  | Raises e => Raises e
  end.

(** ** The store *)

(** A reference is the position of the object in the store; allocation
    appends. *)
Definition ref : Type := nat.
Definition store : Type := list ndarray.

Definition deref (s : store) (r : ref) : ndarray :=
  nth r s (Float64 []).

(** A computation reads and extends the store and returns or raises. *)
Definition M (A : Type) : Type := store -> outcome A * store.

Definition ret {A : Type} (a : A) : M A :=
  fun s => (Returns a, s).

Definition raise {A : Type} (e : exn) : M A :=
  fun s => (Raises e, s).

Definition bind {A B : Type} (m : M A) (k : A -> M B) : M B :=
  fun s =>
    match m s with
    | (Returns a, s') => k a s'
    | (Raises e, s') => (Raises e, s')
    end.

Definition read (r : ref) : M ndarray :=
  fun s => (Returns (deref s r), s).

Definition new (a : ndarray) : M ref :=
  fun s => (Returns (length s), s ++ [a]).

Definition lift {A : Type} (o : outcome A) : M A :=
  fun s => (o, s).

Notation "x <- m ;; k" := (bind m (fun x => k))
  (at level 61, m at next level, right associativity).

(** ** The function *)

Definition R_const : R := 287.05.
Definition Rw_const : R := 461.5.

(** Line 44, on the values of its operands.  [temp_col] and [pres_col] are
    [float64] after line 40; [rel_humidity] keeps the dtype it came with and
    is promoted when it is multiplied with a [float64] array. *)
Definition rho_expr (temp_col pres_col : list R) (rel_humidity : ndarray)
  : outcome (list R) :=
  let inv_temp := scalar_div 1 temp_col in
  let dry := div_scalar pres_col R_const in
  let vapor := scalar_mul 0.0000205 (np_exp (scalar_mul 0.0631846 temp_col)) in
  and_then (multiply (astype_float rel_humidity) vapor) (fun wet =>
  and_then (subtract dry (mul_scalar wet (1 / R_const - 1 / Rw_const)))
    (fun inner =>
  multiply inv_temp inner)).

Definition compute_air_density (temp_col pres_col : ref)
    (humi_col : option ref) : M ref :=
  (* rel_humidity = humi_col if humi_col is not None
                    else np.repeat(0.5, temp_col.shape[0]) *)
  rel_humidity <-
    match humi_col with
    | Some h => ret h
    | None =>
        t <- read temp_col ;;
        new (Float64 (np_repeat 0.5 (shape0 t)))
    end ;;
  (* if np.any(temp_col < 0) or np.any(pres_col < 0)
        or np.any(rel_humidity < 0): raise Exception(...) *)
  t <- read temp_col ;;
  p <- read pres_col ;;
  h <- read rel_humidity ;;
  if np_any (less_zero t) || np_any (less_zero p) || np_any (less_zero h)
  then raise InvalidInputError
  else
    (* temp_col, pres_col = temp_col.astype(float), pres_col.astype(float) *)
    temp_col <- new (Float64 (astype_float t)) ;;
    pres_col <- new (Float64 (astype_float p)) ;;
    (* rho = (1 / temp_col) * (pres_col / R_const - rel_humidity * ...) *)
    t <- read temp_col ;;
    p <- read pres_col ;;
    h <- read rel_humidity ;;
    rho <- lift (rho_expr (astype_float t) (astype_float p) h) ;;
    rho <- new (Float64 rho) ;;
    ret rho.

(** What the caller gets: the array behind the returned reference, or the
    exception. *)
Definition result_of (run : outcome ref * store) : outcome ndarray :=
  match run with
  | (Returns rho, s) => Returns (deref s rho)
  | (Raises e, _) => Raises e
  end.

(** A call on arrays given by value: the arguments are placed in a store of
    their own, and the array the returned reference points to is read
    back. *)
Definition call (T P : ndarray) (H : option ndarray) : outcome ndarray :=
  let s0 := [T; P] ++ match H with Some a => [a] | None => [] end in
  let humi_col := match H with Some _ => Some 2%nat | None => None end in
  result_of (compute_air_density 0%nat 1%nat humi_col s0).

(** The density of one sample, as line 44 computes it. *)
Definition density (T P phi : R) : R :=
  (1 / T) * (P / R_const
             - phi * (0.0000205 * exp (0.0631846 * T))
               * (1 / R_const - 1 / Rw_const)).

(** ** Abbreviations used in the statements *)

(** The test of line 36 on one array. *)
Definition has_negative (a : ndarray) : bool :=
  np_any (less_zero a).

(** Some element of the array is below zero. *)
Definition some_negative (a : ndarray) : Prop :=
  Exists (fun x => x < 0) (astype_float a).

(** No element of the array is below zero. *)
Definition nonnegative (a : ndarray) : Prop :=
  Forall (fun x => 0 <= x) (astype_float a).

(** The humidity the function works with: the array supplied, or the
    default of line 33. *)
Definition humidity_or_default (T : ndarray) (H : option ndarray) : ndarray :=
  match H with
  | Some a => a
  | None => Float64 (np_repeat 0.5 (shape0 T))
  end.

(** Lines 36 to 44 on the values of the three arrays. *)
Definition checked_rho (T P H : ndarray) : outcome (list R) :=
  if has_negative T || has_negative P || has_negative H
  then Raises InvalidInputError
  else rho_expr (astype_float T) (astype_float P) H.

Definition outcome_map {A B : Type} (f : A -> B) (o : outcome A)
  : outcome B :=
  match o with
  | Returns a => Returns (f a)
  | Raises e => Raises e
  end.

(** References that point into the store. *)
Definition valid_ref (s : store) (r : ref) : Prop := (r < length s)%nat.

Definition valid_opt_ref (s : store) (o : option ref) : Prop :=
  match o with
  | Some r => valid_ref s r
  | None => True
  end.

(** The humidity array a call works with, read from the store. *)
Definition humidity_in (s : store) (temp_col : ref) (humi_col : option ref)
  : ndarray :=
  humidity_or_default (deref s temp_col) (option_map (deref s) humi_col).

(** ** Lengths under broadcasting *)

(** Two one-dimensional operands can be combined when their lengths are
    equal or one of them is one. *)
Definition compatible (n m : nat) : Prop :=
  n = m \/ n = 1%nat \/ m = 1%nat.

(** The length the three arrays of line 44 are stretched to. *)
Definition joint_length (t p h : nat) : nat :=
  if Nat.eqb t 1 then (if Nat.eqb p 1 then h else p) else t.

(** The array line 33 creates when the humidity is omitted; nothing when it
    is supplied. *)
Definition default_allocation (s : store) (temp_col : ref)
    (humi_col : option ref) : list ndarray :=
  match humi_col with
  | Some _ => []
  | None => [Float64 (np_repeat 0.5 (shape0 (deref s temp_col)))]
  end.

(** ** The script: one block of years *)

(** The loop body of the script (lines 89 to 123) is modelled on the
    variables it reads from one downloaded file; the download and the
    reading of the file are outside the model, so a file is an input.  A
    variable is an array on the (time, latitude, longitude) grid without
    missing values, the table is kept by columns, and numbers are real
    numbers as before. *)

(** Besides the exceptions of numpy and of [compute_air_density], the loop
    body can raise [IndexError] (a grid without cells), [ValueError] (columns
    of different lengths given to [pd.DataFrame]) and [OverflowError] (a
    date outside the years 1 to 9999). *)
Inductive error : Type :=
| Raised (e : exn)
| IndexError
| ValueError
| OverflowError.

Inductive result (A : Type) : Type :=
| Ok (a : A)
| Fail (e : error).

Arguments Ok {A} a.
Arguments Fail {A} e.

Definition result_bind {A B : Type} (r : result A) (k : A -> result B)
  : result B :=
  match r with
  | Ok a => k a
  | Fail e => Fail e
  end.

Notation "x <-- r ;; k" := (result_bind r (fun x => k))
  (at level 61, r at next level, right associativity).

Definition of_outcome {A : Type} (o : outcome A) : result A :=
  match o with
  | Returns a => Ok a
  | Raises e => Fail (Raised e)
  end.

(** A variable of the file on the (time, latitude, longitude) grid, as
    [data.variables[name][:]] gives it when no value is missing: its shape
    and its values by index. *)
Record variable3 : Type := {
  dim0 : nat;
  dim1 : nat;
  dim2 : nat;
  item : nat -> nat -> nat -> R
}.

(** The length of one axis of the combination of two arrays, by numpy's
    rule. *)
Definition broadcast_axis (n m : nat) : option nat :=
  if Nat.eqb n m then Some n
  else if Nat.eqb n 1 then Some m
  else if Nat.eqb m 1 then Some n
  else None.

(** The index read on an axis of length [n]: a stretched axis is read at
    zero. *)
Definition stretch (n i : nat) : nat :=
  if Nat.eqb n 1 then 0%nat else i.

(** [a ** 2] *)
Definition square (a : variable3) : variable3 :=
  {| dim0 := dim0 a; dim1 := dim1 a; dim2 := dim2 a;
     item := fun i j k => item a i j k ^ 2 |}.

(** [a + b] *)
Definition add (a b : variable3) : outcome variable3 :=
  match broadcast_axis (dim0 a) (dim0 b),
        broadcast_axis (dim1 a) (dim1 b),
        broadcast_axis (dim2 a) (dim2 b) with
  | Some n0, Some n1, Some n2 =>
      Returns
        {| dim0 := n0; dim1 := n1; dim2 := n2;
           item := fun i j k =>
             item a (stretch (dim0 a) i) (stretch (dim1 a) j)
                    (stretch (dim2 a) k)
             + item b (stretch (dim0 b) i) (stretch (dim1 b) j)
                      (stretch (dim2 b) k) |}
  | _, _, _ => Raises BroadcastError
  end.

(** [np.sqrt(a)] *)
Definition np_sqrt (a : variable3) : variable3 :=
  {| dim0 := dim0 a; dim1 := dim1 a; dim2 := dim2 a;
     item := fun i j k => sqrt (item a i j k) |}.

(** [[val[0][0] for val in ma.getdata(a[:])]]: the first grid cell of every
    time step.  Without time steps nothing is indexed; otherwise a grid
    without rows or without columns raises at the first step. *)
Definition first_cells (a : variable3) : result (list R) :=
  if Nat.eqb (dim0 a) 0 then Ok []
  else if Nat.eqb (dim1 a) 0 || Nat.eqb (dim2 a) 0 then Fail IndexError
  else Ok (map (fun i => item a i 0%nat 0%nat) (seq 0 (dim0 a))).

(** A [datetime] on a whole second: the day number of its date
    ([toordinal()]) and the second of the day. *)
Record datetime : Type := {
  ordinal : Z;
  second : Z
}.

(** A [timedelta], normalised as Python keeps it: days and seconds of the
    day. *)
Record timedelta : Type := {
  days : Z;
  seconds : Z
}.

(** [timedelta(hours=h)] *)
Definition timedelta_hours (h : Z) : result timedelta :=
  if (Z.abs (h / 24) >? 999999999)%Z then Fail OverflowError
  else Ok {| days := (h / 24)%Z; seconds := (3600 * (h mod 24))%Z |}.

(** [d + td] *)
Definition datetime_add (d : datetime) (td : timedelta) : result datetime :=
  let s := (second d + seconds td)%Z in
  let day := (ordinal d + days td + s / 86400)%Z in
  if ((0 <? day) && (day <=? 3652059))%Z
  then Ok {| ordinal := day; second := (s mod 86400)%Z |}
  else Fail OverflowError.

(** [datetime(1900, 1, 1, 0, 0, 0)] *)
Definition ERA_start : datetime :=
  {| ordinal := 693596; second := 0 |}.

(** [ERA_start + timedelta(hours=int(dt))] *)
Definition era_datetime (dt : Z) : result datetime :=
  td <-- timedelta_hours dt ;;
  datetime_add ERA_start td.

(** A list comprehension whose element expression may raise. *)
Fixpoint comprehension {A B : Type} (f : A -> result B) (l : list A)
  : result (list B) :=
  match l with
  | [] => Ok []
  | x :: l' =>
      y <-- f x ;;
      ys <-- comprehension f l' ;;
      Ok (y :: ys)
  end.

(** Earlier or equal, then earlier second. *)
Definition datetime_lt (a b : datetime) : Prop :=
  (ordinal a < ordinal b \/ (ordinal a = ordinal b /\ second a < second b))%Z.

(** The table of the script, by columns. *)
Record DataFrame : Type := {
  col_datetime : list datetime;
  col_u_100 : list R;
  col_v_100 : list R;
  col_t_2m : list R;
  col_surf_pres : list R;
  col_ws_100m : list R;
  col_dens_100m : list R
}.

(** [pd.DataFrame()] *)
Definition empty_frame : DataFrame :=
  {| col_datetime := []; col_u_100 := []; col_v_100 := []; col_t_2m := [];
     col_surf_pres := []; col_ws_100m := []; col_dens_100m := [] |}.

(** [pd.concat([a, b], axis=0, ignore_index=True)] *)
Definition concat (a b : DataFrame) : DataFrame :=
  {| col_datetime := col_datetime a ++ col_datetime b;
     col_u_100 := col_u_100 a ++ col_u_100 b;
     col_v_100 := col_v_100 a ++ col_v_100 b;
     col_t_2m := col_t_2m a ++ col_t_2m b;
     col_surf_pres := col_surf_pres a ++ col_surf_pres b;
     col_ws_100m := col_ws_100m a ++ col_ws_100m b;
     col_dens_100m := col_dens_100m a ++ col_dens_100m b |}.

(** The variables the loop body reads from one downloaded file. *)
Record dataset : Type := {
  u100 : variable3;
  v100 : variable3;
  t2m : variable3;
  sp : variable3;
  time : list Z
}.

(** [pd.DataFrame({...})] accepts columns of one length only. *)
Definition same_length (n : nat) (ls : list nat) : bool :=
  forallb (Nat.eqb n) ls.

(** Lines 89 to 120: the table of one file. *)
Definition process_block (data : dataset) : result DataFrame :=
  let u_100 := u100 data in
  let v_100 := v100 data in
  let t_2m := t2m data in
  let surf_pres := sp data in
  (* ws_100m = np.sqrt(v_100**2 + u_100**2) *)
  ws_100m <-- of_outcome
    (outcome_map np_sqrt (add (square v_100) (square u_100))) ;;
  (* [val[0][0] for val in ma.getdata(...)] *)
  ws_100m <-- first_cells ws_100m ;;
  u_100 <-- first_cells u_100 ;;
  v_100 <-- first_cells v_100 ;;
  t_2m <-- first_cells t_2m ;;
  surf_pres <-- first_cells surf_pres ;;
  (* ERA_datetime = [ERA_start + timedelta(hours=int(dt)) for dt in ...] *)
  ERA_datetime <-- comprehension era_datetime (time data) ;;
  (* df = pd.DataFrame({...}) *)
  if same_length (length ERA_datetime)
       [length u_100; length v_100; length t_2m; length surf_pres;
        length ws_100m]
  then
    (* df['dens_100m'] = compute_air_density(df['t_2m'], df['surf_pres']) *)
    dens_100m <-- of_outcome
      (call (Float64 t_2m) (Float64 surf_pres) None) ;;
    Ok {| col_datetime := ERA_datetime; col_u_100 := u_100;
          col_v_100 := v_100; col_t_2m := t_2m;
          col_surf_pres := surf_pres; col_ws_100m := ws_100m;
          col_dens_100m := astype_float dens_100m |}
  else Fail ValueError.

(** The loop of the script over the downloaded files, from the table
    collected so far to the table that is written at the end. *)
Fixpoint process_blocks (files : list dataset) (result_df : DataFrame)
  : result DataFrame :=
  match files with
  | [] => Ok result_df
  | data :: files' =>
      df <-- process_block data ;;
      process_blocks files' (concat result_df df)
  end.

(** ** Abbreviations for the statements about the script *)

(** Two variables of one shape that agree on the first grid cell of every
    time step. *)
Definition same_first_cells (a b : variable3) : Prop :=
  dim0 a = dim0 b /\ dim1 a = dim1 b /\ dim2 a = dim2 b /\
  forall i, item a i 0%nat 0%nat = item b i 0%nat 0%nat.

(** A file as the download delivers it: four variables on one grid with at
    least one cell and [n] time steps, and [n] hour counts that are dates
    of the years 1 to 9999. *)
Definition well_formed (data : dataset) (n : nat) : Prop :=
  Forall (fun a => dim0 a = n /\ dim1 a = dim1 (u100 data) /\
                   dim2 a = dim2 (u100 data))
    [u100 data; v100 data; t2m data; sp data] /\
  (1 <= dim1 (u100 data))%nat /\ (1 <= dim2 (u100 data))%nat /\
  length (time data) = n /\
  Forall (fun h => (-16646280 <= h <= 71003135)%Z) (time data).

(** Every row of the table is consistent: the wind speed is the length of
    the wind vector, the density is that of the temperature and pressure at
    humidity 0.5, and neither of the two is negative. *)
Definition consistent (df : DataFrame) : Prop :=
  let n := length (col_datetime df) in
  (length (col_u_100 df) = n /\ length (col_v_100 df) = n /\
   length (col_t_2m df) = n /\ length (col_surf_pres df) = n /\
   length (col_ws_100m df) = n /\ length (col_dens_100m df) = n) /\
  forall i, (i < n)%nat ->
    nth i (col_ws_100m df) 0
    = sqrt (nth i (col_v_100 df) 0 ^ 2 + nth i (col_u_100 df) 0 ^ 2) /\
    nth i (col_dens_100m df) 0
    = density (nth i (col_t_2m df) 0) (nth i (col_surf_pres df) 0) 0.5 /\
    0 <= nth i (col_t_2m df) 0 /\
    0 <= nth i (col_surf_pres df) 0.

(** ** Example inputs *)

(** Two time steps on a grid of two by two cells: [first] in the first cell
    of each step, [other] in the other cells. *)
Definition example_variable (first other : R) : variable3 :=
  {| dim0 := 2; dim1 := 2; dim2 := 2;
     item := fun i j k =>
       match j, k with
       | O, O => first
       | _, _ => other
       end |}.

Definition example_file : dataset :=
  {| u100 := example_variable 3 0;
     v100 := example_variable 4 0;
     t2m := example_variable 288.15 0;
     sp := example_variable 101325 0;
     time := [1000000; 1000001]%Z |}.

Definition example_file_other_cells : dataset :=
  {| u100 := example_variable 3 7;
     v100 := example_variable 4 (-7);
     t2m := example_variable 288.15 (-1);
     sp := example_variable 101325 (-1);
     time := [1000000; 1000001]%Z |}.

(** ** The function in binary64 arithmetic *)

(** The same function once more, on arrays of IEEE 754 binary64 numbers
    with the rounding of every operation: Rocq's primitive floats are
    binary64 with round-to-nearest-even, as numpy's [float64] is.  Here the
    arrays are values, all of dtype [float64], so [astype(float)] returns
    its argument's values.  The exponential of one element comes from the
    platform's mathematical library and is a parameter, [libm_exp];
    statements are made for every such function that returns a positive
    finite number where the program needs one. *)
Module F64.
Import Stdlib.Floats.Floats.
#[local] Set Warnings "-inexact-float".
#[local] Open Scope float_scope.

Section WithExp.

Variable libm_exp : float -> float.

(** [a < 0] *)
Definition less_zero (a : list float) : list bool :=
  map (fun x => x <? 0) a.

(** [np.repeat(x, n)] *)
Definition np_repeat (x : float) (n : nat) : list float :=
  repeat x n.

(** [np.exp(a)] *)
Definition np_exp (a : list float) : list float :=
  map libm_exp a.

Definition scalar_div (c : float) (a : list float) : list float :=
  map (fun x => c / x) a.

Definition div_scalar (a : list float) (c : float) : list float :=
  map (fun x => x / c) a.

Definition scalar_mul (c : float) (a : list float) : list float :=
  map (fun x => c * x) a.

Definition mul_scalar (a : list float) (c : float) : list float :=
  map (fun x => x * c) a.

Fixpoint zip_with (f : float -> float -> float) (a b : list float)
  : list float :=
  match a, b with
  | x :: a', y :: b' => f x y :: zip_with f a' b'
  | _, _ => []
  end.

Definition broadcast (f : float -> float -> float) (a b : list float)
  : outcome (list float) :=
  if Nat.eqb (length a) (length b) then Returns (zip_with f a b)
  else
    match a, b with
    | [x], _ => Returns (map (fun y => f x y) b)
    | _, [y] => Returns (map (fun x => f x y) a)
    | _, _ => Raises BroadcastError
    end.

Definition multiply : list float -> list float -> outcome (list float) :=
  broadcast mul.

Definition subtract : list float -> list float -> outcome (list float) :=
  broadcast sub.

Definition R_const : float := 287.05.
Definition Rw_const : float := 461.5.

(** Line 44. *)
Definition rho_expr (temp_col pres_col rel_humidity : list float)
  : outcome (list float) :=
  let inv_temp := scalar_div 1 temp_col in
  let dry := div_scalar pres_col R_const in
  let vapor := scalar_mul 0.0000205 (np_exp (scalar_mul 0.0631846 temp_col)) in
  and_then (multiply rel_humidity vapor) (fun wet =>
  and_then (subtract dry (mul_scalar wet (1 / R_const - 1 / Rw_const)))
    (fun inner =>
  multiply inv_temp inner)).

Definition compute_air_density (temp_col pres_col : list float)
    (humi_col : option (list float)) : outcome (list float) :=
  let rel_humidity :=
    match humi_col with
    | Some h => h
    | None => np_repeat 0.5 (length temp_col)
    end in
  if np_any (less_zero temp_col) || np_any (less_zero pres_col)
     || np_any (less_zero rel_humidity)
  then Raises InvalidInputError
  else rho_expr temp_col pres_col rel_humidity.

(** The vapour factor of line 44 at temperature [T] is a positive finite
    number: the exponential has not overflowed. *)
Definition vapor_finite (T : float) : Prop :=
  exists m e,
    Prim2SF (0.0000205 * libm_exp (0.0631846 * T)) = S754_finite false m e.

(** The dry-air density as the program computes it once the vapour term
    has vanished. *)
Definition dry_density (T P : float) : float :=
  1 / T * (P / R_const).

End WithExp.

End F64.

(** ** Lists, arrays and the store *)

Lemma zip_with_length f a b :
  length a = length b -> length (zip_with f a b) = length a.
Proof.
  revert b; induction a as [|x a IH]; intros [|y b] E; simpl in *;
    try discriminate; auto.
Qed.

Lemma zip_with_nth f a b i d :
  length a = length b -> (i < length a)%nat ->
  nth i (zip_with f a b) d = f (nth i a d) (nth i b d).
Proof.
  revert b i; induction a as [|x a IH]; intros [|y b] [|i] E Hi;
    simpl in *; try discriminate; try lia; auto.
  apply IH; lia.
Qed.

Lemma map_nth_in (f : R -> R) a i d :
  (i < length a)%nat -> nth i (map f a) d = f (nth i a d).
Proof.
  intros Hi. rewrite (nth_indep _ d (f d)) by (rewrite length_map; exact Hi).
  apply map_nth.
Qed.

Lemma broadcast_same_length f a b :
  length a = length b -> broadcast f a b = Returns (zip_with f a b).
Proof.
  intros E. unfold broadcast. rewrite E, Nat.eqb_refl. reflexivity.
Qed.

Lemma broadcast_stretch_left f x b :
  broadcast f [x] b = Returns (map (fun y => f x y) b).
Proof.
  unfold broadcast. destruct b as [|y [|z b]]; reflexivity.
Qed.

Lemma astype_float_length a : length (astype_float a) = shape0 a.
Proof. destruct a; simpl; [apply length_map | reflexivity]. Qed.

Lemma deref_old s s' r :
  (r < length s)%nat -> deref (s ++ s') r = deref s r.
Proof. intros Hr. unfold deref. apply app_nth1. exact Hr. Qed.

Lemma deref_new s a s' : deref (s ++ a :: s') (length s) = a.
Proof. unfold deref. rewrite app_nth2, Nat.sub_diag by lia. reflexivity. Qed.

(** ** The negativity test *)

Lemma Rltb_true x y : Rltb x y = true <-> x < y.
Proof. unfold Rltb. destruct (Rlt_dec x y); split; intros; auto; discriminate. Qed.

Lemma has_negative_iff a : has_negative a = true <-> some_negative a.
Proof.
  unfold has_negative, some_negative, np_any. rewrite existsb_exists, Exists_exists.
  destruct a as [d|d]; simpl.
  - split.
    + intros [b [Hb ->]]. apply in_map_iff in Hb. destruct Hb as [z [Hz Hin]].
      exists (IZR z). split; [apply in_map; exact Hin|].
      apply Z.ltb_lt in Hz. apply IZR_lt. exact Hz.
    + intros [x [Hx Hneg]]. apply in_map_iff in Hx. destruct Hx as [z [<- Hin]].
      exists true. split; [|reflexivity]. apply in_map_iff. exists z.
      split; [|exact Hin]. apply Z.ltb_lt. apply lt_IZR. exact Hneg.
  - split.
    + intros [b [Hb ->]]. apply in_map_iff in Hb. destruct Hb as [x [Hx Hin]].
      exists x. split; [exact Hin|]. apply Rltb_true. exact Hx.
    + intros [x [Hin Hneg]]. exists true. split; [|reflexivity].
      apply in_map_iff. exists x. split; [|exact Hin]. apply Rltb_true. exact Hneg.
Qed.

Lemma has_negative_false a : has_negative a = false <-> nonnegative a.
Proof.
  unfold nonnegative. rewrite Forall_forall. split.
  - intros Hf x Hin. destruct (Rle_lt_dec 0 x) as [Hx|Hx]; [exact Hx|].
    assert (Ht : has_negative a = true).
    { apply has_negative_iff. apply Exists_exists. exists x. split; assumption. }
    congruence.
  - intros Hall. destruct (has_negative a) eqn:E; [|reflexivity].
    apply has_negative_iff in E. apply Exists_exists in E.
    destruct E as [x [Hin Hx]]. apply Hall in Hin. lra.
Qed.

Lemma default_humidity_nonnegative n :
  has_negative (Float64 (np_repeat 0.5 n)) = false.
Proof.
  apply has_negative_false. unfold nonnegative, np_repeat. simpl.
  apply Forall_forall. intros x Hin. apply repeat_spec in Hin. subst x. lra.
Qed.

(** ** What a call does to the store, and what it returns *)

Lemma compute_air_density_run s t p hum :
  valid_ref s t -> valid_ref s p -> valid_opt_ref s hum ->
  exists fresh,
    snd (compute_air_density t p hum s) = s ++ fresh /\
    match checked_rho (deref s t) (deref s p) (humidity_in s t hum) with
    | Returns r =>
        exists l, fst (compute_air_density t p hum s) = Returns l /\
                  deref (s ++ fresh) l = Float64 r
    | Raises e => fst (compute_air_density t p hum s) = Raises e
    end.
Proof.
  unfold valid_ref, valid_opt_ref, humidity_in. intros Ht Hp Hh.
  set (T := deref s t). set (P := deref s p).
  destruct hum as [h|]; simpl option_map; unfold humidity_or_default.
  - set (H := deref s h).
    unfold compute_air_density, bind, ret, read, new, raise, lift, checked_rho,
      has_negative.
    fold T P H.
    destruct (np_any (less_zero T) || np_any (less_zero P) || np_any (less_zero H)).
    + exists []. rewrite app_nil_r. split; reflexivity.
    + set (tA := Float64 (astype_float T)). set (pA := Float64 (astype_float P)).
      rewrite (deref_new (s ++ [tA]) pA []).
      rewrite (deref_old (s ++ [tA]) [pA] (length s))
        by (rewrite length_app; simpl; lia).
      rewrite (deref_new s tA []).
      rewrite (deref_old (s ++ [tA]) [pA] h)
        by (rewrite length_app; unfold valid_ref in Hh; lia).
      rewrite (deref_old s [tA] h) by exact Hh.
      fold H. subst tA pA. simpl astype_float.
      destruct (rho_expr (astype_float T) (astype_float P) H) as [r|e].
      * exists [Float64 (astype_float T); Float64 (astype_float P); Float64 r].
        simpl fst; simpl snd. split.
        { rewrite <- !app_assoc. reflexivity. }
        eexists. split; [reflexivity|].
        replace (s ++ [Float64 (astype_float T); Float64 (astype_float P); Float64 r])
          with ((s ++ [Float64 (astype_float T)]) ++ [Float64 (astype_float P)]
                ++ [Float64 r])
          by (rewrite <- !app_assoc; reflexivity).
        rewrite app_assoc. apply deref_new.
      * exists [Float64 (astype_float T); Float64 (astype_float P)].
        simpl. split; [rewrite <- app_assoc|]; reflexivity.
  - set (H := Float64 (np_repeat 0.5 (shape0 T))).
    unfold compute_air_density, bind, ret, read, new, raise, lift, checked_rho,
      has_negative.
    fold T. fold H.
    rewrite !(deref_old s [H]) by assumption. fold T P.
    rewrite (deref_new s H []).
    destruct (np_any (less_zero T) || np_any (less_zero P) || np_any (less_zero H)).
    + exists [H]. split; reflexivity.
    + set (tA := Float64 (astype_float T)). set (pA := Float64 (astype_float P)).
      set (s1 := s ++ [H]).
      assert (Hs1 : (length s < length s1)%nat)
        by (unfold s1; rewrite length_app; simpl; lia).
      rewrite (deref_new (s1 ++ [tA]) pA []).
      rewrite (deref_old (s1 ++ [tA]) [pA] (length s1))
        by (rewrite length_app; simpl; lia).
      rewrite (deref_new s1 tA []).
      rewrite (deref_old (s1 ++ [tA]) [pA] (length s))
        by (rewrite length_app; lia).
      rewrite (deref_old s1 [tA] (length s)) by exact Hs1.
      replace (deref s1 (length s)) with H
        by (unfold s1; symmetry; apply (deref_new s H [])).
      subst tA pA. simpl astype_float.
      destruct (rho_expr (astype_float T) (astype_float P) H) as [r|e].
      * exists [H; Float64 (astype_float T); Float64 (astype_float P); Float64 r].
        simpl fst; simpl snd. split.
        { unfold s1. rewrite <- !app_assoc. reflexivity. }
        eexists. split; [reflexivity|].
        replace (s ++ [H; Float64 (astype_float T); Float64 (astype_float P); Float64 r])
          with ((s1 ++ [Float64 (astype_float T)]) ++ [Float64 (astype_float P)]
                ++ [Float64 r])
          by (unfold s1; rewrite <- !app_assoc; reflexivity).
        rewrite app_assoc. apply deref_new.
      * exists [H; Float64 (astype_float T); Float64 (astype_float P)].
        simpl. split; [unfold s1; rewrite <- !app_assoc|]; reflexivity.
Qed.

Lemma call_value T P H :
  call T P H = outcome_map Float64 (checked_rho T P (humidity_or_default T H)).
Proof.
  unfold call, result_of.
  set (s0 := [T; P] ++ match H with Some a => [a] | None => [] end).
  set (hum := match H with Some _ => Some 2%nat | None => None end).
  assert (Ht : valid_ref s0 0%nat) by (unfold valid_ref, s0; destruct H; simpl; lia).
  assert (Hp : valid_ref s0 1%nat) by (unfold valid_ref, s0; destruct H; simpl; lia).
  assert (Hh : valid_opt_ref s0 hum)
    by (unfold valid_opt_ref, valid_ref, hum, s0; destruct H; simpl; auto).
  destruct (compute_air_density_run s0 0%nat 1%nat hum Ht Hp Hh) as [fresh [Hs Hv]].
  assert (EH : humidity_in s0 0%nat hum = humidity_or_default T H)
    by (unfold humidity_in, hum, s0; destruct H; reflexivity).
  rewrite EH in Hv.
  replace (deref s0 0%nat) with T in Hv by (unfold s0; destruct H; reflexivity).
  replace (deref s0 1%nat) with P in Hv by (unfold s0; destruct H; reflexivity).
  destruct (compute_air_density 0%nat 1%nat hum s0) as [[l|e] s'] eqn:E; simpl in Hs, Hv;
    destruct (checked_rho T P (humidity_or_default T H)) as [r|e'];
    simpl outcome_map.
  - destruct Hv as [l' [El Hl]]. injection El as <-. rewrite Hs, Hl. reflexivity.
  - discriminate.
  - destruct Hv as [l' [El _]]. discriminate.
  - congruence.
Qed.

(** ** Line 44, sample by sample *)

Lemma vapor_length (T : list R) :
  length (scalar_mul 0.0000205 (np_exp (scalar_mul 0.0631846 T))) = length T.
Proof. unfold scalar_mul, np_exp. rewrite !length_map. reflexivity. Qed.

Lemma vapor_nth (T : list R) i :
  (i < length T)%nat ->
  nth i (scalar_mul 0.0000205 (np_exp (scalar_mul 0.0631846 T))) 0
  = 0.0000205 * exp (0.0631846 * nth i T 0).
Proof.
  intros Hi. unfold scalar_mul, np_exp.
  rewrite map_nth_in by (rewrite !length_map; exact Hi).
  rewrite map_nth_in by (rewrite length_map; exact Hi).
  rewrite map_nth_in by exact Hi. reflexivity.
Qed.

(** Once the humidity has been combined with the vapour factor into an array
    as long as the temperature, the rest of line 44 is elementwise. *)
Lemma rho_expr_from_wet (T P : list R) (H : ndarray) wet (phi : nat -> R) :
  length P = length T ->
  multiply (astype_float H)
    (scalar_mul 0.0000205 (np_exp (scalar_mul 0.0631846 T))) = Returns wet ->
  length wet = length T ->
  (forall i, (i < length T)%nat ->
     nth i wet 0 = phi i * (0.0000205 * exp (0.0631846 * nth i T 0))) ->
  exists out,
    rho_expr T P H = Returns out /\
    length out = length T /\
    forall i, (i < length T)%nat ->
      nth i out 0 = density (nth i T 0) (nth i P 0) (phi i).
Proof.
  intros EP Ewet Lwet Hwet. unfold rho_expr. rewrite Ewet. simpl and_then.
  unfold subtract, multiply.
  rewrite broadcast_same_length
    by (unfold div_scalar, mul_scalar; rewrite !length_map; congruence).
  simpl and_then.
  rewrite broadcast_same_length
    by (unfold scalar_div; rewrite length_map, zip_with_length;
        unfold div_scalar, mul_scalar; rewrite ?length_map; congruence).
  eexists. split; [reflexivity|]. split.
  - rewrite zip_with_length; unfold scalar_div; rewrite length_map; auto.
    rewrite zip_with_length; unfold div_scalar, mul_scalar;
      rewrite ?length_map; congruence.
  - intros i Hi.
    rewrite zip_with_nth; unfold scalar_div; rewrite ?length_map; auto.
    + rewrite zip_with_nth; unfold div_scalar, mul_scalar;
        rewrite ?length_map; try congruence; try lia.
      rewrite !map_nth_in by congruence.
      rewrite Hwet by exact Hi. unfold density. reflexivity.
    + rewrite zip_with_length; unfold div_scalar, mul_scalar;
        rewrite ?length_map; congruence.
Qed.

(** Three arrays of one length: every sample is combined with the humidity
    of its own index. *)
Lemma rho_expr_aligned (T P : list R) (H : ndarray) :
  length P = length T -> shape0 H = length T ->
  exists out,
    rho_expr T P H = Returns out /\
    length out = length T /\
    forall i, (i < length T)%nat ->
      nth i out 0
      = density (nth i T 0) (nth i P 0) (nth i (astype_float H) 0).
Proof.
  intros EP EH. rewrite <- astype_float_length in EH.
  apply (rho_expr_from_wet T P H
           (zip_with Rmult (astype_float H)
              (scalar_mul 0.0000205 (np_exp (scalar_mul 0.0631846 T))))
           (fun i => nth i (astype_float H) 0)); auto.
  - unfold multiply. apply broadcast_same_length. rewrite vapor_length. exact EH.
  - rewrite zip_with_length; rewrite ?vapor_length; auto.
  - intros i Hi. rewrite zip_with_nth; rewrite ?vapor_length; try congruence.
    rewrite vapor_nth by exact Hi. reflexivity.
Qed.

(** A humidity array of length one is stretched over all samples. *)
Lemma rho_expr_stretched (T P : list R) (H : ndarray) h0 :
  length P = length T -> astype_float H = [h0] ->
  exists out,
    rho_expr T P H = Returns out /\
    length out = length T /\
    forall i, (i < length T)%nat ->
      nth i out 0 = density (nth i T 0) (nth i P 0) h0.
Proof.
  intros EP EH.
  apply (rho_expr_from_wet T P H
           (map (fun y => h0 * y)
              (scalar_mul 0.0000205 (np_exp (scalar_mul 0.0631846 T))))
           (fun _ => h0)); auto.
  - rewrite EH. unfold multiply. apply broadcast_stretch_left.
  - rewrite length_map. apply vapor_length.
  - intros i Hi. rewrite map_nth_in by (rewrite vapor_length; exact Hi).
    rewrite vapor_nth by exact Hi. reflexivity.
Qed.

(** ** Bounds on the exponential *)

(** [exp (2 x)] is the square of [exp x]: bounds at [x] give bounds at
    [2 x]. *)
Lemma exp_double_bounds x l u l' u' :
  0 <= l -> l' <= l * l -> u * u <= u' ->
  l <= exp x <= u -> l' <= exp (2 * x) <= u'.
Proof.
  intros Hl Hl' Hu' [Hlo Hhi].
  replace (2 * x) with (x + x) by lra. rewrite exp_plus.
  pose proof (exp_pos x) as Hpos. split.
  - apply Rle_trans with (l * l); [exact Hl'|].
    apply Rmult_le_compat; assumption.
  - apply Rle_trans with (u * u); [|exact Hu'].
    apply Rmult_le_compat; lra.
Qed.

(** Below one, [exp y] is at most [1 / (1 - y)]. *)
Lemma exp_upper_below_one y : y < 1 -> exp y <= / (1 - y).
Proof.
  intros Hy. pose proof (exp_ineq1_le (- y)) as Hm.
  rewrite exp_Ropp in Hm.
  pose proof (exp_pos y) as Hpos.
  rewrite <- (Rinv_inv (exp y)).
  apply Rinv_le_contravar; lra.
Qed.

(** One squaring step on the bounds in the context. *)
Ltac square_bounds l' u' :=
  match goal with
  | B : (?l <= exp ?x <= ?u) |- _ =>
      apply (exp_double_bounds x l u l' u') in B; [ | lra | lra | lra ]
  end.

(** The exponent of line 44 at 288.15 K is 18.20664249; halved twelve times
    it is small enough for the linear bounds, and twelve squarings bring the
    bounds back. *)
Lemma exp_at_standard_temperature :
  77539489 <= exp (0.0631846 * 288.15) <= 84075595.
Proof.
  set (y := 18.20664249 / 4096).
  replace (0.0631846 * 288.15)
    with (2 * (2 * (2 * (2 * (2 * (2 * (2 * (2 * (2 * (2 * (2 * (2 * y))))))))))))
    by (unfold y; lra).
  assert (B : 1.0044449810766 <= exp y <= 1.0044648271489).
  { split.
    - pose proof (exp_ineq1_le y). unfold y in *. lra.
    - apply Rle_trans with (/ (1 - y));
        [apply exp_upper_below_one; unfold y; lra|].
      apply Rmult_le_reg_l with (1 - y); [unfold y; lra|].
      rewrite Rinv_r by (unfold y; lra). unfold y. lra. }
  square_bounds 1.0089097200099 1.0089495889793.
  square_bounds 1.0178988231304 1.0179792731015.
  square_bounds 1.0361180141302 1.0362818004643.
  square_bounds 1.0735405392051 1.0738799699736.
  square_bounds 1.1524892893167 1.1532181899106.
  square_bounds 1.3282315619897 1.3299121935407.
  square_bounds 1.7641990822655 1.7686664425283.
  square_bounds 3.1123984018664 3.1281809849258.
  square_bounds 9.6870238119405 9.7855162744514.
  square_bounds 93.838430333102 95.756328757554.
  square_bounds 8805.6510073804 9169.2744971248.
  square_bounds 77539489.663779 84075594.803624.
  lra.
Qed.

(** ** Which exceptions a call can raise *)

Lemma broadcast_raises f a b e : broadcast f a b = Raises e -> e = BroadcastError.
Proof.
  unfold broadcast. destruct (Nat.eqb (length a) (length b)); [discriminate|].
  destruct a as [|x [|x' a]]; destruct b as [|y [|y' b]]; intros E;
    try discriminate; injection E as <-; reflexivity.
Qed.

Lemma rho_expr_raises T P H e : rho_expr T P H = Raises e -> e = BroadcastError.
Proof.
  unfold rho_expr, multiply, subtract.
  destruct (broadcast Rmult (astype_float H) _) as [wet|e1] eqn:E1; simpl.
  - destruct (broadcast Rminus _ _) as [inner|e2] eqn:E2; simpl.
    + apply broadcast_raises.
    + intros E. injection E as <-. exact (broadcast_raises _ _ _ _ E2).
  - intros E. injection E as <-. exact (broadcast_raises _ _ _ _ E1).
Qed.

Lemma checked_rho_invalid T P H :
  checked_rho T P H = Raises InvalidInputError <->
  has_negative T || has_negative P || has_negative H = true.
Proof.
  unfold checked_rho.
  destruct (has_negative T || has_negative P || has_negative H); split; auto.
  - intros E. apply rho_expr_raises in E. discriminate.
  - discriminate.
Qed.

Lemma checked_rho_valid T P H :
  nonnegative T -> nonnegative P -> nonnegative H ->
  checked_rho T P H = rho_expr (astype_float T) (astype_float P) H.
Proof.
  intros HT HP HH. unfold checked_rho.
  apply has_negative_false in HT, HP, HH. rewrite HT, HP, HH. reflexivity.
Qed.

Lemma default_humidity_valid T :
  nonnegative (humidity_or_default T None).
Proof. apply has_negative_false. apply default_humidity_nonnegative. Qed.

Lemma default_humidity_nth n i : (i < n)%nat -> nth i (np_repeat 0.5 n) 0 = 0.5.
Proof.
  intros Hi. unfold np_repeat. apply repeat_spec with (n := n).
  apply nth_In. rewrite repeat_length. exact Hi.
Qed.

(** A valid call on arrays of one length returns, sample by sample, the
    density of line 44. *)
Lemma call_aligned T P H :
  shape0 P = shape0 T ->
  shape0 (humidity_or_default T H) = shape0 T ->
  nonnegative T -> nonnegative P -> nonnegative (humidity_or_default T H) ->
  exists out,
    call T P H = Returns (Float64 out) /\
    length out = shape0 T /\
    forall i, (i < shape0 T)%nat ->
      nth i out 0
      = density (nth i (astype_float T) 0) (nth i (astype_float P) 0)
          (nth i (astype_float (humidity_or_default T H)) 0).
Proof.
  intros EP EH VT VP VH. rewrite call_value, checked_rho_valid by assumption.
  rewrite <- (astype_float_length T) in *. rewrite <- (astype_float_length P) in EP.
  destruct (rho_expr_aligned _ _ _ EP EH) as [out [E [L Hn]]].
  exists out. rewrite E. simpl. auto.
Qed.

Lemma call_single T P phi :
  0 <= T -> 0 <= P -> 0 <= phi ->
  call (Float64 [T]) (Float64 [P]) (Some (Float64 [phi]))
  = Returns (Float64 [density T P phi]).
Proof.
  intros HT HP Hphi.
  assert (V : forall x, 0 <= x -> nonnegative (Float64 [x]))
    by (intros x Hx; unfold nonnegative; simpl; constructor; [exact Hx|constructor]).
  destruct (call_aligned (Float64 [T]) (Float64 [P]) (Some (Float64 [phi]))
              eq_refl eq_refl (V T HT) (V P HP) (V phi Hphi))
    as [out [E [L Hn]]].
  rewrite E. simpl in L, Hn.
  destruct out as [|x [|x' out]]; try discriminate.
  specialize (Hn 0%nat ltac:(lia)). simpl in Hn. rewrite Hn. reflexivity.
Qed.

(** What the caller gets depends on the store only through the three
    arrays. *)
Lemma result_of_run s t p hum :
  valid_ref s t -> valid_ref s p -> valid_opt_ref s hum ->
  result_of (compute_air_density t p hum s)
  = outcome_map Float64
      (checked_rho (deref s t) (deref s p) (humidity_in s t hum)).
Proof.
  intros Ht Hp Hh.
  destruct (compute_air_density_run s t p hum Ht Hp Hh) as [fresh [Hs Hv]].
  unfold result_of.
  destruct (compute_air_density t p hum s) as [[l|e] s1]; simpl in Hs, Hv;
    destruct (checked_rho (deref s t) (deref s p) (humidity_in s t hum))
      as [r|e']; simpl outcome_map.
  - destruct Hv as [l' [El Hl]]. injection El as <-. rewrite Hs, Hl. reflexivity.
  - discriminate.
  - destruct Hv as [l' [El _]]. discriminate.
  - congruence.
Qed.

(** ** Properties of the density of one sample *)

(** Without humidity the density is the dry-air law.  At [T = 0] both sides
    are a division by zero, here as in the program. *)
Lemma density_dry T P : density T P 0 = P / (R_const * T).
Proof.
  unfold density, R_const, Rw_const. destruct (Req_dec T 0) as [->|HT].
  - replace (287.05 * 0) with 0 by lra. unfold Rdiv. rewrite Rinv_0. ring.
  - field. repeat split; try assumption; lra.
Qed.


Lemma density_standard_atmosphere :
  1.2210 < density 288.15 101325 0.5 < 1.2215.
Proof.
  pose proof exp_at_standard_temperature as [Hlo Hhi].
  unfold density, R_const, Rw_const.
  set (E := exp (0.0631846 * 288.15)) in *.
  assert (H1 : 1 / 288.15 * (101325 / 287.05
               - 0.5 * (0.0000205 * E) * (1 / 287.05 - 1 / 461.5))
             = (101325 / 287.05
                - 0.5 * 0.0000205 * (1 / 287.05 - 1 / 461.5) * E) / 288.15)
    by (field; lra).
  rewrite H1. clear H1.
  assert (Hc : 0.0000000134 < 0.5 * 0.0000205 * (1 / 287.05 - 1 / 461.5)
               < 0.0000000135).
  { split.
    - apply Rmult_lt_reg_r with (287.05 * 461.5); [lra|]. field_simplify; lra.
    - apply Rmult_lt_reg_r with (287.05 * 461.5); [lra|]. field_simplify; lra. }
  set (c := 0.5 * 0.0000205 * (1 / 287.05 - 1 / 461.5)) in *.
  assert (Hd : 352.98 < 101325 / 287.05 < 352.99).
  { split.
    - apply Rmult_lt_reg_r with 287.05; [lra|]. field_simplify; lra.
    - apply Rmult_lt_reg_r with 287.05; [lra|]. field_simplify; lra. }
  set (d := 101325 / 287.05) in *.
  assert (HcE : 1.03 < c * E < 1.14) by (split; nra).
  split.
  - apply Rmult_lt_reg_r with 288.15; [lra|]. unfold Rdiv at 1.
    rewrite Rmult_assoc, Rinv_l by lra. lra.
  - apply Rmult_lt_reg_r with 288.15; [lra|]. unfold Rdiv at 1.
    rewrite Rmult_assoc, Rinv_l by lra. lra.
Qed.

(** * The claims *)

(** C1.  For temperature, pressure and humidity sequences of one length,
    all elements nonnegative and no temperature zero, the call returns an
    array whose element at each index [i] is
    [(1/T[i]) * (P[i]/287.05 - phi[i] * (0.0000205 * exp(0.0631846 * T[i]))
                                * (1/287.05 - 1/461.5))]. *)
Theorem density_formula (T P phi : list R) :
  length P = length T -> length phi = length T ->
  Forall (fun x => 0 <= x) T ->
  Forall (fun x => 0 <= x) P ->
  Forall (fun x => 0 <= x) phi ->
  Forall (fun x => x <> 0) T ->
  exists rho,
    call (Float64 T) (Float64 P) (Some (Float64 phi)) = Returns (Float64 rho) /\
    forall i, (i < length T)%nat ->
      nth i rho 0
      = (1 / nth i T 0)
        * (nth i P 0 / 287.05
           - nth i phi 0 * (0.0000205 * exp (0.0631846 * nth i T 0))
             * (1 / 287.05 - 1 / 461.5)).
Proof.
  intros EP Ephi VT VP Vphi _.
  destruct (call_aligned (Float64 T) (Float64 P) (Some (Float64 phi)))
    as [rho [E [_ Hn]]]; auto.
  exists rho. split; [exact E|]. intros i Hi. apply Hn. exact Hi.
Qed.

(** C2.  The call fails with [InvalidInputError] exactly when some element
    of the temperature, of the pressure or of a supplied humidity is
    negative: whatever the lengths and dtypes, a negative value gives the
    error and no array, and inputs without one never give this error. *)
Theorem invalid_input_iff_negative (T P : ndarray) (H : option ndarray) :
  call T P H = Raises InvalidInputError <->
  some_negative T \/ some_negative P \/
  exists a, H = Some a /\ some_negative a.
Proof.
  rewrite call_value.
  assert (E : outcome_map Float64 (checked_rho T P (humidity_or_default T H))
              = Raises InvalidInputError <->
              checked_rho T P (humidity_or_default T H) = Raises InvalidInputError).
  { destruct (checked_rho T P (humidity_or_default T H)); simpl; split;
      intros E; try discriminate; congruence. }
  rewrite E, checked_rho_invalid, !orb_true_iff, !has_negative_iff.
  split.
  - intros [[HT|HP]|HH]; auto. destruct H as [a|].
    + right; right. exists a. split; [reflexivity|exact HH].
    + apply has_negative_iff in HH. simpl in HH.
      rewrite default_humidity_nonnegative in HH. discriminate.
  - intros [HT|[HP|[a [-> HH]]]]; auto.
Qed.

(** C3.  A call without humidity returns what a call with the constant
    humidity 0.5, repeated once per temperature sample, returns: the same
    array or the same exception. *)
Theorem omitted_humidity_is_half (T P : ndarray) :
  call T P None = call T P (Some (Float64 (np_repeat 0.5 (shape0 T)))).
Proof. rewrite !call_value. reflexivity. Qed.

(** C4.  For nonnegative inputs of one length the returned array has that
    length, and its element at index [i] is the density of the temperature,
    pressure and humidity at index [i]: no sample is dropped or moved. *)
Theorem density_length_and_alignment (T P H : ndarray) :
  shape0 P = shape0 T -> shape0 H = shape0 T ->
  nonnegative T -> nonnegative P -> nonnegative H ->
  exists rho,
    call T P (Some H) = Returns (Float64 rho) /\
    length rho = shape0 T /\
    forall i, (i < shape0 T)%nat ->
      nth i rho 0
      = density (nth i (astype_float T) 0) (nth i (astype_float P) 0)
          (nth i (astype_float H) 0).
Proof.
  intros EP EH VT VP VH.
  exact (call_aligned T P (Some H) EP EH VT VP VH).
Qed.

(** C5, as amended.  For [T = [288.15]], [P = [101325]], [phi = [0.5]] the
    call returns one value, within 1e-3 of 1.2212 kg/m3. *)
Theorem standard_atmosphere_density :
  exists rho,
    call (Float64 [288.15]) (Float64 [101325]) (Some (Float64 [0.5]))
    = Returns (Float64 [rho]) /\
    Rabs (rho - 1.2212) < 0.001.
Proof.
  exists (density 288.15 101325 0.5). split.
  - apply call_single; lra.
  - pose proof density_standard_atmosphere as [Hlo Hhi].
    apply Rabs_def1; lra.
Qed.

(** C5, as stated, fails: the value returned for the standard atmosphere
    with humidity 0.5 is not within 1e-3 of 1.2253. *)
Lemma standard_atmosphere_not_1_2253 :
  ~ exists rho,
      call (Float64 [288.15]) (Float64 [101325]) (Some (Float64 [0.5]))
      = Returns (Float64 [rho]) /\
      Rabs (rho - 1.2253) <= 0.001.
Proof.
  intros [rho [E Hr]].
  rewrite call_single in E by lra. injection E as <-.
  pose proof density_standard_atmosphere as [Hlo Hhi].
  unfold Rabs in Hr. destruct (Rcase_abs _); lra.
Qed.

(** C7.  The call is pure and deterministic.  It only adds objects to the
    store, so every array that was there, the arguments among them, is
    unchanged; and what the caller gets is determined by the contents of the
    argument arrays: two calls on equal arrays, wherever they live and
    whatever else the store holds, give the same array or the same
    exception. *)
Theorem pure_and_deterministic (s s' : store) (t p t' p' : ref)
    (hum hum' : option ref) :
  valid_ref s t -> valid_ref s p -> valid_opt_ref s hum ->
  valid_ref s' t' -> valid_ref s' p' -> valid_opt_ref s' hum' ->
  deref s t = deref s' t' -> deref s p = deref s' p' ->
  option_map (deref s) hum = option_map (deref s') hum' ->
  (exists fresh, snd (compute_air_density t p hum s) = s ++ fresh) /\
  (forall r, valid_ref s r ->
     deref (snd (compute_air_density t p hum s)) r = deref s r) /\
  result_of (compute_air_density t p hum s)
  = result_of (compute_air_density t' p' hum' s').
Proof.
  intros Ht Hp Hh Ht' Hp' Hh' ET EP EH.
  destruct (compute_air_density_run s t p hum Ht Hp Hh) as [fresh [Hs _]].
  split; [exists fresh; exact Hs|]. split.
  - intros r Hr. rewrite Hs. apply deref_old. exact Hr.
  - rewrite !result_of_run by assumption.
    unfold humidity_in. rewrite ET, EP, EH. reflexivity.
Qed.

(** A call on arrays of any dtype returns what the call on their
    [astype(float)] images returns. *)
Lemma call_on_float_images (T P : ndarray) (H : option ndarray) :
  call T P H
  = call (Float64 (astype_float T)) (Float64 (astype_float P))
         (option_map (fun a => Float64 (astype_float a)) H).
Proof.
  assert (N : forall a, has_negative (Float64 (astype_float a)) = has_negative a).
  { intros a. destruct (has_negative a) eqn:E.
    - apply has_negative_iff. apply has_negative_iff in E. exact E.
    - apply has_negative_false. apply has_negative_false in E. exact E. }
  rewrite !call_value. f_equal. unfold checked_rho. rewrite !N.
  assert (EH : has_negative
                 (humidity_or_default (Float64 (astype_float T))
                    (option_map (fun a => Float64 (astype_float a)) H))
               = has_negative (humidity_or_default T H)).
  { destruct H as [a|]; simpl; [apply N|].
    rewrite astype_float_length. reflexivity. }
  rewrite EH.
  destruct (has_negative T || has_negative P
            || has_negative (humidity_or_default T H)); [reflexivity|].
  unfold rho_expr. simpl astype_float.
  destruct H as [a|]; simpl; [reflexivity|].
  rewrite astype_float_length. reflexivity.
Qed.

(** * The theorems at concrete inputs *)

Lemma density_formula_witness :
  exists rho,
    call (Float64 [288.15; 250]) (Float64 [101325; 90000])
         (Some (Float64 [0.5; 0])) = Returns (Float64 rho) /\
    forall i, (i < 2)%nat ->
      nth i rho 0
      = (1 / nth i [288.15; 250] 0)
        * (nth i [101325; 90000] 0 / 287.05
           - nth i [0.5; 0] 0
             * (0.0000205 * exp (0.0631846 * nth i [288.15; 250] 0))
             * (1 / 287.05 - 1 / 461.5)).
Proof.
  apply (density_formula [288.15; 250] [101325; 90000] [0.5; 0]);
    try reflexivity; repeat (constructor; try lra).
Defined.

Lemma invalid_input_iff_negative_witness :
  call (Float64 [-1.0]) (Float64 [101325.0]) None = Raises InvalidInputError.
Proof.
  apply (proj2 (invalid_input_iff_negative
                  (Float64 [-1.0]) (Float64 [101325.0]) None)).
  left. unfold some_negative. simpl. constructor. lra.
Defined.

Lemma density_length_and_alignment_witness :
  exists rho,
    call (Int64 [280; 290]%Z) (Float64 [100000; 101325])
         (Some (Float64 [0.5; 0.25])) = Returns (Float64 rho) /\
    length rho = 2%nat /\
    forall i, (i < 2)%nat ->
      nth i rho 0
      = density (nth i [280; 290] 0) (nth i [100000; 101325] 0)
          (nth i [0.5; 0.25] 0).
Proof.
  apply (density_length_and_alignment
           (Int64 [280; 290]%Z) (Float64 [100000; 101325])
           (Float64 [0.5; 0.25]));
    try reflexivity; unfold nonnegative; simpl; repeat (constructor; try lra).
Defined.

Lemma pure_and_deterministic_witness :
  (exists fresh,
     snd (compute_air_density 0%nat 1%nat None
            [Float64 [288.15]; Float64 [101325]])
     = [Float64 [288.15]; Float64 [101325]] ++ fresh) /\
  (forall r, valid_ref [Float64 [288.15]; Float64 [101325]] r ->
     deref (snd (compute_air_density 0%nat 1%nat None
                   [Float64 [288.15]; Float64 [101325]])) r
     = deref [Float64 [288.15]; Float64 [101325]] r) /\
  result_of (compute_air_density 0%nat 1%nat None
               [Float64 [288.15]; Float64 [101325]])
  = result_of (compute_air_density 2%nat 1%nat None
                 [Int64 [7]%Z; Float64 [101325]; Float64 [288.15]]).
Proof.
  apply (pure_and_deterministic
           [Float64 [288.15]; Float64 [101325]]
           [Int64 [7]%Z; Float64 [101325]; Float64 [288.15]]
           0%nat 1%nat 2%nat 1%nat None None);
    try reflexivity; unfold valid_ref, valid_opt_ref; simpl; auto; lia.
Defined.

(** * Further properties of [compute_air_density] *)

(** ** The store after a call *)

(** The exact effect of a call: the default humidity, when it is needed,
    then, once the check has passed, the two [astype] copies, then the
    result. *)
Lemma compute_air_density_exact s t p hum :
  valid_ref s t -> valid_ref s p -> valid_opt_ref s hum ->
  let T := deref s t in
  let P := deref s p in
  let H := humidity_in s t hum in
  let d := default_allocation s t hum in
  compute_air_density t p hum s
  = if has_negative T || has_negative P || has_negative H
    then (Raises InvalidInputError, s ++ d)
    else
      match rho_expr (astype_float T) (astype_float P) H with
      | Returns r =>
          (Returns (length s + length d + 2)%nat,
           s ++ d ++ [Float64 (astype_float T); Float64 (astype_float P);
                      Float64 r])
      | Raises e =>
          (Raises e,
           s ++ d ++ [Float64 (astype_float T); Float64 (astype_float P)])
      end.
Proof.
  unfold valid_ref, valid_opt_ref, humidity_in, default_allocation.
  intros Ht Hp Hh. cbv zeta.
  set (T := deref s t). set (P := deref s p).
  destruct hum as [h|]; simpl option_map; unfold humidity_or_default.
  - set (H := deref s h).
    unfold compute_air_density, bind, ret, read, new, raise, lift, has_negative.
    fold T P H.
    destruct (np_any (less_zero T) || np_any (less_zero P) || np_any (less_zero H)).
    + rewrite app_nil_r. reflexivity.
    + set (tA := Float64 (astype_float T)). set (pA := Float64 (astype_float P)).
      rewrite (deref_new (s ++ [tA]) pA []).
      rewrite (deref_old (s ++ [tA]) [pA] (length s))
        by (rewrite length_app; simpl; lia).
      rewrite (deref_new s tA []).
      rewrite (deref_old (s ++ [tA]) [pA] h)
        by (rewrite length_app; unfold valid_ref in Hh; lia).
      rewrite (deref_old s [tA] h) by exact Hh.
      fold H. subst tA pA. simpl astype_float.
      destruct (rho_expr (astype_float T) (astype_float P) H) as [r|e].
      * rewrite !length_app. simpl. rewrite <- !app_assoc. simpl.
        f_equal. f_equal. lia.
      * rewrite <- !app_assoc. reflexivity.
  - set (H := Float64 (np_repeat 0.5 (shape0 T))).
    unfold compute_air_density, bind, ret, read, new, raise, lift, has_negative.
    fold T. fold H.
    rewrite !(deref_old s [H]) by assumption. fold T P.
    rewrite (deref_new s H []).
    destruct (np_any (less_zero T) || np_any (less_zero P) || np_any (less_zero H)).
    + reflexivity.
    + set (tA := Float64 (astype_float T)). set (pA := Float64 (astype_float P)).
      set (s1 := s ++ [H]).
      assert (Hs1 : (length s < length s1)%nat)
        by (unfold s1; rewrite length_app; simpl; lia).
      rewrite (deref_new (s1 ++ [tA]) pA []).
      rewrite (deref_old (s1 ++ [tA]) [pA] (length s1))
        by (rewrite length_app; simpl; lia).
      rewrite (deref_new s1 tA []).
      rewrite (deref_old (s1 ++ [tA]) [pA] (length s))
        by (rewrite length_app; lia).
      rewrite (deref_old s1 [tA] (length s)) by exact Hs1.
      replace (deref s1 (length s)) with H
        by (unfold s1; symmetry; apply (deref_new s H [])).
      subst tA pA. simpl astype_float.
      destruct (rho_expr (astype_float T) (astype_float P) H) as [r|e].
      * unfold s1. rewrite !length_app. simpl. rewrite <- !app_assoc. simpl.
        f_equal. f_equal. lia.
      * unfold s1. rewrite <- !app_assoc. reflexivity.
Qed.

(** X1.  A call that fails the check of line 36 has converted and computed
    nothing: with a supplied humidity the store is left as it was, and with
    an omitted one the only new object is the default humidity array of
    line 33. *)
Theorem failed_check_allocates_nothing s t p hum :
  valid_ref s t -> valid_ref s p -> valid_opt_ref s hum ->
  fst (compute_air_density t p hum s) = Raises InvalidInputError ->
  snd (compute_air_density t p hum s) = s ++ default_allocation s t hum.
Proof.
  intros Ht Hp Hh. rewrite (compute_air_density_exact s t p hum Ht Hp Hh).
  cbv zeta.
  destruct (has_negative (deref s t) || has_negative (deref s p)
            || has_negative (humidity_in s t hum)); [reflexivity|].
  destruct (rho_expr _ _ _) as [r|e] eqn:E; simpl; intros F; [discriminate|].
  apply rho_expr_raises in E. congruence.
Qed.

(** X2.  The array a call returns is a new object: its reference points at
    nothing in the store the call started from, so it is none of the
    arguments, and it holds a [float64] array. *)
Theorem returned_array_is_fresh s t p hum l :
  valid_ref s t -> valid_ref s p -> valid_opt_ref s hum ->
  fst (compute_air_density t p hum s) = Returns l ->
  ~ valid_ref s l /\
  l <> t /\ l <> p /\ hum <> Some l /\
  exists rho, deref (snd (compute_air_density t p hum s)) l = Float64 rho.
Proof.
  intros Ht Hp Hh. rewrite (compute_air_density_exact s t p hum Ht Hp Hh).
  cbv zeta.
  destruct (has_negative (deref s t) || has_negative (deref s p)
            || has_negative (humidity_in s t hum)); [discriminate|].
  destruct (rho_expr _ _ _) as [r|e]; simpl; intros F; [|discriminate].
  injection F as <-. unfold valid_ref in *.
  split; [lia|]. split; [lia|]. split; [lia|]. split.
  - intros E. rewrite E in Hh. simpl in Hh. unfold valid_ref in Hh. lia.
  - exists r. set (d := default_allocation s t hum).
    replace (s ++ d ++ [Float64 (astype_float (deref s t));
                        Float64 (astype_float (deref s p)); Float64 r])
      with ((s ++ d ++ [Float64 (astype_float (deref s t));
                        Float64 (astype_float (deref s p))]) ++ [Float64 r])
      by (rewrite <- !app_assoc; reflexivity).
    replace (length s + length d + 2)%nat
      with (length (s ++ d ++ [Float64 (astype_float (deref s t));
                               Float64 (astype_float (deref s p))]))
      by (rewrite !length_app; simpl; lia).
    apply deref_new.
Qed.

(** ** Lengths *)

Lemma broadcast_cases f a b :
  (exists c, broadcast f a b = Returns c /\
             length c = (if Nat.eqb (length a) 1 then length b else length a) /\
             compatible (length a) (length b)) \/
  (broadcast f a b = Raises BroadcastError /\
   ~ compatible (length a) (length b)).
Proof.
  unfold broadcast, compatible.
  destruct (Nat.eqb_spec (length a) (length b)) as [E|N].
  - left. exists (zip_with f a b). split; [reflexivity|].
    rewrite zip_with_length by exact E.
    destruct (Nat.eqb_spec (length a) 1); split; auto; lia.
  - destruct a as [|x [|x' a]]; destruct b as [|y [|y' b]]; simpl in *;
      try lia;
      try (left; eexists; split; [reflexivity|];
           simpl; rewrite ?length_map; split; auto; lia);
      right; split; auto; lia.
Qed.

(** X3.  For inputs without negative values the lengths alone decide the
    outcome.  When every two of the three lengths (an omitted humidity has
    the length of the temperature) are equal or one of them is one, the call
    returns an array of the length the three are stretched to; otherwise
    numpy's broadcasting raises. *)
Theorem outcome_by_lengths (T P : ndarray) (H : option ndarray) :
  nonnegative T -> nonnegative P -> nonnegative (humidity_or_default T H) ->
  let t := shape0 T in
  let p := shape0 P in
  let h := shape0 (humidity_or_default T H) in
  (compatible t p /\ compatible t h /\ compatible p h ->
   exists rho, call T P H = Returns (Float64 rho) /\
               length rho = joint_length t p h) /\
  (~ (compatible t p /\ compatible t h /\ compatible p h) ->
   call T P H = Raises BroadcastError).
Proof.
  intros VT VP VH. cbv zeta.
  rewrite call_value, checked_rho_valid by assumption.
  rewrite <- (astype_float_length T), <- (astype_float_length P),
    <- (astype_float_length (humidity_or_default T H)).
  set (tl := astype_float T). set (pl := astype_float P).
  set (hl := astype_float (humidity_or_default T H)).
  unfold rho_expr, multiply, subtract. fold hl.
  set (vapor := scalar_mul 0.0000205 (np_exp (scalar_mul 0.0631846 tl))).
  assert (Lv : length vapor = length tl) by apply vapor_length.
  assert (Li : length (scalar_div 1 tl) = length tl)
    by (unfold scalar_div; apply length_map).
  assert (Ld : length (div_scalar pl R_const) = length pl)
    by (unfold div_scalar; apply length_map).
  unfold joint_length, compatible.
  destruct (broadcast_cases Rmult hl vapor) as [[wet [E1 [L1 C1]]]|[E1 C1]];
    rewrite E1; simpl and_then; unfold compatible in C1; rewrite Lv in *.
  - assert (Lw : length (mul_scalar wet (1 / R_const - 1 / Rw_const))
                 = length wet) by (unfold mul_scalar; apply length_map).
    destruct (broadcast_cases Rminus (div_scalar pl R_const)
                (mul_scalar wet (1 / R_const - 1 / Rw_const)))
      as [[inner [E2 [L2 C2]]]|[E2 C2]];
      rewrite E2; simpl and_then; unfold compatible in C2;
      rewrite Ld, Lw in *.
    + destruct (broadcast_cases Rmult (scalar_div 1 tl) inner)
        as [[rho [E3 [L3 C3]]]|[E3 C3]];
        rewrite E3; simpl outcome_map; unfold compatible in C3;
        rewrite Li in *;
        destruct (Nat.eqb_spec (length hl) 1);
        destruct (Nat.eqb_spec (length pl) 1);
        destruct (Nat.eqb_spec (length tl) 1);
        (split;
         [intros Hc;
          first [solve [exfalso; lia]
                |exists rho; split; [reflexivity|lia]]
         |intros N; first [reflexivity|exfalso; lia]]).
    + destruct (Nat.eqb_spec (length hl) 1);
        (split; [intros Hc; exfalso; lia|intros _; reflexivity]).
  - split; [intros Hc; exfalso; lia|intros _; reflexivity].
Qed.

Lemma broadcast_stretch_right f a y :
  broadcast f a [y] = Returns (map (fun x => f x y) a).
Proof.
  unfold broadcast. destruct a as [|x [|x' a]]; reflexivity.
Qed.

Lemma call_default_aligned (T P : ndarray) :
  shape0 P = shape0 T -> nonnegative T -> nonnegative P ->
  exists rho,
    call T P None = Returns (Float64 rho) /\
    length rho = shape0 T /\
    forall i, (i < shape0 T)%nat ->
      nth i rho 0
      = density (nth i (astype_float T) 0) (nth i (astype_float P) 0) 0.5.
Proof.
  intros EP VT VP.
  assert (EH : shape0 (humidity_or_default T None) = shape0 T)
    by (simpl; unfold np_repeat; apply repeat_length).
  destruct (call_aligned T P None EP EH VT VP (default_humidity_valid T))
    as [rho [E [L Hn]]].
  exists rho. split; [exact E|]. split; [exact L|].
  intros i Hi. rewrite (Hn i Hi). simpl.
  rewrite default_humidity_nth by exact Hi. reflexivity.
Qed.

(** X4.  The script calls the function without humidity (line 120): for
    temperature and pressure of one length and without negative values, the
    call returns one density per sample, computed with the humidity 0.5. *)
Theorem default_humidity_density (T P : ndarray) :
  shape0 P = shape0 T -> nonnegative T -> nonnegative P ->
  exists rho,
    call T P None = Returns (Float64 rho) /\
    length rho = shape0 T /\
    forall i, (i < shape0 T)%nat ->
      nth i rho 0
      = density (nth i (astype_float T) 0) (nth i (astype_float P) 0) 0.5.
Proof. exact (call_default_aligned T P). Qed.

(** X5.  A temperature array of one element is stretched like a humidity
    array of one element is: with one temperature and one humidity (supplied
    or the default) the call returns one density per pressure sample, so the
    result can be longer than the temperature array. *)
Theorem single_temperature_is_stretched (T P : ndarray) (H : option ndarray)
    (t0 h0 : R) :
  astype_float T = [t0] ->
  astype_float (humidity_or_default T H) = [h0] ->
  0 <= t0 -> 0 <= h0 -> nonnegative P ->
  exists rho,
    call T P H = Returns (Float64 rho) /\
    length rho = shape0 P /\
    forall i, (i < shape0 P)%nat ->
      nth i rho 0 = density t0 (nth i (astype_float P) 0) h0.
Proof.
  intros ET EH Ht0 Hh0 VP.
  assert (VT : nonnegative T)
    by (unfold nonnegative; rewrite ET; constructor; [exact Ht0|constructor]).
  assert (VH : nonnegative (humidity_or_default T H))
    by (unfold nonnegative; rewrite EH; constructor; [exact Hh0|constructor]).
  rewrite call_value, checked_rho_valid by assumption.
  rewrite <- (astype_float_length P).
  unfold rho_expr, multiply, subtract. rewrite ET, EH. simpl scalar_mul.
  simpl np_exp. simpl scalar_div.
  rewrite broadcast_stretch_left. simpl and_then. simpl mul_scalar.
  rewrite broadcast_stretch_right. simpl and_then.
  rewrite broadcast_stretch_left. simpl outcome_map.
  eexists. split; [reflexivity|]. split.
  - unfold div_scalar. rewrite !length_map. reflexivity.
  - intros i Hi. unfold div_scalar.
    rewrite map_nth_in by (rewrite !length_map; exact Hi).
    rewrite map_nth_in by (rewrite length_map; exact Hi).
    rewrite map_nth_in by exact Hi.
    unfold density. reflexivity.
Qed.

(** ** The formula *)

Lemma gas_constant_gap : 0.0013168 < 1 / R_const - 1 / Rw_const < 0.0013169.
Proof.
  unfold R_const, Rw_const. split.
  - apply Rmult_lt_reg_r with (287.05 * 461.5); [lra|]. field_simplify; lra.
  - apply Rmult_lt_reg_r with (287.05 * 461.5); [lra|]. field_simplify; lra.
Qed.

Lemma vapor_positive T : 0 < 0.0000205 * exp (0.0631846 * T).
Proof. pose proof (exp_pos (0.0631846 * T)). lra. Qed.


Lemma density_sign T P phi :
  0 < T ->
  (density T P phi < 0 <->
   P < phi * (0.0000205 * exp (0.0631846 * T)) * (1 - 287.05 / 461.5)).
Proof.
  intros HT. unfold density, R_const, Rw_const.
  set (v := 0.0000205 * exp (0.0631846 * T)).
  assert (E : 1 / T * (P / 287.05 - phi * v * (1 / 287.05 - 1 / 461.5))
              = (P - phi * v * (1 - 287.05 / 461.5)) * / (287.05 * T))
    by (field; lra).
  rewrite E.
  assert (Hpos : 0 < / (287.05 * T)) by (apply Rinv_0_lt_compat; nra).
  split; intros Hl.
  - assert (P - phi * v * (1 - 287.05 / 461.5) < 0); [|lra].
    apply Rmult_lt_reg_r with (/ (287.05 * T)); [exact Hpos|]. lra.
  - replace 0 with (0 * / (287.05 * T)) by ring.
    apply Rmult_lt_compat_r; [exact Hpos|lra].
Qed.

(** The exponent of line 44 at 330 K is 20.850918. *)
Lemma exp_at_330 :
  1106455221 <= exp (0.0631846 * 330) <= 1166762675.
Proof.
  set (y := 20.850918 / 8192).
  replace (0.0631846 * 330)
    with (2 * (2 * (2 * (2 * (2 * (2 * (2 * (2 * (2 * (2 * (2 * (2 * (2 * y)))))))))))))
    by (unfold y; lra).
  assert (B : 1.0025452780761 <= exp y <= 1.0025517730482).
  { split.
    - pose proof (exp_ineq1_le y). unfold y in *. lra.
    - apply Rle_trans with (/ (1 - y));
        [apply exp_upper_below_one; unfold y; lra|].
      apply Rmult_le_reg_l with (1 - y); [unfold y; lra|].
      rewrite Rinv_r by (unfold y; lra). unfold y. lra. }
  square_bounds 1.0050970345926 1.0051100576421.
  square_bounds 1.0102200489468 1.0102462279734.
  square_bounds 1.020544547294 1.0205974411345.
  square_bounds 1.0415111730115 1.0416191368503.
  square_bounds 1.0847455235077 1.0849704262528.
  square_bounds 1.1766728507699 1.1771608258432.
  square_bounds 1.3845589977389 1.3857076098999.
  square_bounds 1.9170036182197 1.9201855801345.
  square_bounds 3.6749028722674 3.6871126621565.
  square_bounds 13.504911120599 13.594799783435.
  square_bounds 182.38262437527 184.81858115169.
  square_bounds 33263.42167401 34157.907938924.
  square_bounds 1106455221.4629 1166762674.7641.
  lra.
Qed.

Lemma density_positive_in_range T P phi :
  0 < T <= 330 -> 0 <= phi <= 1 -> 10000 <= P -> 0 < density T P phi.
Proof.
  intros [HT0 HT1] [Hp0 Hp1] HP. unfold density.
  pose proof gas_constant_gap as [Hc0 Hc1].
  set (c := 1 / R_const - 1 / Rw_const) in *.
  assert (HE : exp (0.0631846 * T) <= 1166762675).
  { apply Rle_trans with (exp (0.0631846 * 330)); [|apply exp_at_330].
    destruct (Req_dec T 330) as [->|N]; [apply Rle_refl|].
    apply Rlt_le, exp_increasing. lra. }
  pose proof (exp_pos (0.0631846 * T)) as HE0.
  set (E := exp (0.0631846 * T)) in *.
  assert (Hd : 34.8 < P / R_const).
  { unfold R_const. apply Rmult_lt_reg_r with 287.05; [lra|].
    unfold Rdiv. rewrite Rmult_assoc, Rinv_l by lra. lra. }
  assert (Hv : 0 <= 0.0000205 * E <= 23919) by lra.
  assert (Hpv : phi * (0.0000205 * E) <= 23919).
  { apply Rle_trans with (1 * (0.0000205 * E)); [|lra].
    apply Rmult_le_compat_r; lra. }
  assert (Hpv0 : 0 <= phi * (0.0000205 * E))
    by (apply Rmult_le_pos; lra).
  assert (Hw : phi * (0.0000205 * E) * c <= 31.5) by nra.
  apply Rmult_lt_0_compat; [apply Rdiv_lt_0_compat; lra|lra].
Qed.

(** X9.  In the range of surface weather the density is positive: for a
    temperature in (0, 330] K, a humidity in [0, 1] and a pressure of at
    least 10000 Pa at index [i], the returned value at [i] is above zero. *)
Theorem density_positive_for_surface_weather (T P : ndarray)
    (H : option ndarray) (i : nat) :
  shape0 P = shape0 T -> shape0 (humidity_or_default T H) = shape0 T ->
  nonnegative T -> nonnegative P -> nonnegative (humidity_or_default T H) ->
  (i < shape0 T)%nat ->
  0 < nth i (astype_float T) 0 <= 330 ->
  nth i (astype_float (humidity_or_default T H)) 0 <= 1 ->
  10000 <= nth i (astype_float P) 0 ->
  exists rho,
    call T P H = Returns (Float64 rho) /\ 0 < nth i rho 0.
Proof.
  intros EP EH VT VP VH Hi HT Hphi HP.
  destruct (call_aligned T P H EP EH VT VP VH) as [rho [C [_ N]]].
  exists rho. split; [exact C|]. rewrite (N i Hi).
  apply density_positive_in_range; try assumption. split; [|exact Hphi].
  unfold nonnegative in VH. rewrite Forall_forall in VH. apply VH.
  apply nth_In. rewrite astype_float_length. lia.
Qed.

(** * The script *)

(** ** Time stamps *)

Lemma hour_seconds_small (h : Z) :
  ((3600 * (h mod 24)) / 86400 = 0 /\
   (3600 * (h mod 24)) mod 86400 = 3600 * (h mod 24))%Z.
Proof.
  assert (0 <= 3600 * (h mod 24) < 86400)%Z
    by (pose proof (Z.mod_pos_bound h 24); lia).
  split; [apply Z.div_small|apply Z.mod_small]; assumption.
Qed.

Lemma day_bounds (h : Z) :
  ((-16646280 <= h <-> 0 < 693596 + h / 24) /\
   (h <= 71003135 <-> 693596 + h / 24 <= 3652059) /\
   (-16646280 <= h <= 71003135 -> Z.abs (h / 24) <= 999999999))%Z.
Proof.
  pose proof (Z.div_mod h 24 ltac:(lia)) as E.
  pose proof (Z.mod_pos_bound h 24 ltac:(lia)) as B.
  set (q := (h / 24)%Z) in *. set (r := (h mod 24)%Z) in *.
  lia.
Qed.

Lemma era_datetime_value (h : Z) :
  era_datetime h
  = if ((-16646280 <=? h) && (h <=? 71003135))%Z
    then Ok {| ordinal := (693596 + h / 24)%Z;
               second := (3600 * (h mod 24))%Z |}
    else Fail OverflowError.
Proof.
  unfold era_datetime, timedelta_hours, datetime_add, ERA_start, result_bind.
  destruct (hour_seconds_small h) as [Hdiv Hmod].
  destruct (day_bounds h) as [Hlo [Hhi Habs]].
  destruct (Z.gtb_spec (Z.abs (h / 24)) 999999999) as [Ha|Ha].
  - destruct (Z.leb_spec (-16646280) h); destruct (Z.leb_spec h 71003135);
      try reflexivity.
    exfalso. lia.
  - cbn [ordinal second days seconds].
    rewrite (Z.add_0_l (3600 * (h mod 24))), Hdiv, Hmod, Z.add_0_r.
    destruct (Z.leb_spec (-16646280) h); destruct (Z.leb_spec h 71003135);
      destruct (Z.ltb_spec 0 (693596 + h / 24));
      destruct (Z.leb_spec (693596 + h / 24) 3652059);
      try reflexivity; exfalso; lia.
Qed.

Lemma era_datetime_ok (h : Z) :
  (-16646280 <= h <= 71003135)%Z ->
  era_datetime h = Ok {| ordinal := (693596 + h / 24)%Z;
                         second := (3600 * (h mod 24))%Z |}.
Proof.
  intros [Hlo Hhi]. rewrite era_datetime_value.
  destruct (Z.leb_spec (-16646280) h); [|lia].
  destruct (Z.leb_spec h 71003135); [|lia]. reflexivity.
Qed.

(** X10.  An hour count [h] becomes the day [h div 24] after 1900-01-01 and
    the hour [h mod 24] of that day (negative counts reach back before
    1900), as long as the date stays within the years 1 to 9999, which is
    [-16646280 <= h <= 71003135]; outside that range the conversion raises
    [OverflowError]. *)
Theorem era_datetime_range (h : Z) :
  ((-16646280 <= h <= 71003135)%Z ->
   era_datetime h = Ok {| ordinal := (693596 + h / 24)%Z;
                          second := (3600 * (h mod 24))%Z |}) /\
  (~ (-16646280 <= h <= 71003135)%Z ->
   era_datetime h = Fail OverflowError).
Proof.
  rewrite era_datetime_value.
  destruct (Z.leb_spec (-16646280) h); destruct (Z.leb_spec h 71003135);
    cbn [andb]; split; intros; try reflexivity; exfalso; lia.
Qed.

Lemma Ok_injective {A : Type} (a b : A) : Ok a = Ok b -> a = b.
Proof. intros E. injection E. auto. Qed.

Lemma era_datetime_fields (h : Z) (d : datetime) :
  era_datetime h = Ok d ->
  (ordinal d = 693596 + h / 24 /\ second d = 3600 * (h mod 24))%Z.
Proof.
  rewrite era_datetime_value.
  destruct ((-16646280 <=? h) && (h <=? 71003135))%Z; [|discriminate].
  intros E. apply Ok_injective in E. rewrite <- E. split; reflexivity.
Qed.

(** X11.  The conversion keeps the order of the time axis: of two hour
    counts that convert, the smaller gives the earlier datetime; distinct
    hours never share a time stamp. *)
Theorem era_datetime_increasing (h1 h2 : Z) (d1 d2 : datetime) :
  era_datetime h1 = Ok d1 -> era_datetime h2 = Ok d2 ->
  (h1 < h2)%Z -> datetime_lt d1 d2.
Proof.
  intros E1 E2 Hlt.
  destruct (era_datetime_fields h1 d1 E1) as [O1 S1].
  destruct (era_datetime_fields h2 d2 E2) as [O2 S2].
  unfold datetime_lt. rewrite O1, O2, S1, S2.
  pose proof (Z.div_mod h1 24 ltac:(lia)) as D1.
  pose proof (Z.mod_pos_bound h1 24 ltac:(lia)) as B1.
  pose proof (Z.div_mod h2 24 ltac:(lia)) as D2.
  pose proof (Z.mod_pos_bound h2 24 ltac:(lia)) as B2.
  lia.
Qed.

(** ** Lists built by the loop body *)

Lemma first_cells_ok a l :
  first_cells a = Ok l ->
  length l = dim0 a /\
  forall i, (i < dim0 a)%nat -> nth i l 0 = item a i 0%nat 0%nat.
Proof.
  unfold first_cells. destruct (Nat.eqb_spec (dim0 a) 0) as [E|N].
  - intros F. injection F as <-. rewrite E. split; [reflexivity|]. lia.
  - destruct (Nat.eqb (dim1 a) 0 || Nat.eqb (dim2 a) 0); [discriminate|].
    intros F. injection F as <-. split.
    + rewrite length_map, length_seq. reflexivity.
    + intros i Hi.
      rewrite (nth_indep _ 0 (item a 0%nat 0%nat 0%nat))
        by (rewrite length_map, length_seq; exact Hi).
      change (item a 0%nat 0%nat 0%nat)
        with ((fun i => item a i 0%nat 0%nat) 0%nat).
      rewrite map_nth, seq_nth by exact Hi. reflexivity.
Qed.

Lemma comprehension_length {A B : Type} (f : A -> result B) l r :
  comprehension f l = Ok r -> length r = length l.
Proof.
  revert r. induction l as [|x l IH]; simpl; intros r E.
  - injection E as <-. reflexivity.
  - destruct (f x) as [y|e]; simpl in E; [|discriminate].
    destruct (comprehension f l) as [ys|e]; simpl in E; [|discriminate].
    injection E as <-. simpl. f_equal. apply IH. reflexivity.
Qed.

Lemma comprehension_all_ok {A B : Type} (f : A -> result B) l :
  Forall (fun x => exists y, f x = Ok y) l ->
  exists r, comprehension f l = Ok r.
Proof.
  induction 1 as [|x l [y Hy] _ [r Hr]]; simpl.
  - exists []. reflexivity.
  - rewrite Hy, Hr. simpl. exists (y :: r). reflexivity.
Qed.

Lemma stretch_zero n : stretch n 0 = 0%nat.
Proof. unfold stretch. destruct (Nat.eqb n 1); reflexivity. Qed.

Lemma broadcast_axis_some n m k :
  broadcast_axis n m = Some k ->
  (n = m /\ k = n) \/ (n = 1%nat /\ k = m) \/ (m = 1%nat /\ k = n).
Proof.
  unfold broadcast_axis.
  destruct (Nat.eqb_spec n m); [intros E; injection E as <-; auto|].
  destruct (Nat.eqb_spec n 1); [intros E; injection E as <-; auto|].
  destruct (Nat.eqb_spec m 1); [intros E; injection E as <-; auto|].
  discriminate.
Qed.

(** The wind speed of the first cells, when the sum of the squares could be
    formed. *)
Lemma wind_speed_cells v u w ws :
  add (square v) (square u) = Returns w ->
  first_cells (np_sqrt w) = Ok ws ->
  length ws = dim0 w /\
  forall i, (i < dim0 w)%nat ->
    nth i ws 0
    = sqrt (item v (stretch (dim0 v) i) 0%nat 0%nat ^ 2
            + item u (stretch (dim0 u) i) 0%nat 0%nat ^ 2).
Proof.
  unfold add. simpl.
  destruct (broadcast_axis (dim0 v) (dim0 u)) as [n0|]; [|discriminate].
  destruct (broadcast_axis (dim1 v) (dim1 u)) as [n1|]; [|discriminate].
  destruct (broadcast_axis (dim2 v) (dim2 u)) as [n2|]; [|discriminate].
  intros E. injection E as <-. intros F.
  apply first_cells_ok in F. simpl in F. destruct F as [L Hn].
  split; [exact L|]. intros i Hi. rewrite (Hn i Hi).
  rewrite !stretch_zero. reflexivity.
Qed.

(** ** The table of one file *)

Lemma call_returns_nonnegative T P H a :
  call T P H = Returns a ->
  nonnegative T /\ nonnegative P /\ nonnegative (humidity_or_default T H).
Proof.
  rewrite call_value. unfold checked_rho.
  destruct (has_negative T) eqn:ET; [discriminate|].
  destruct (has_negative P) eqn:EP; [discriminate|].
  destruct (has_negative (humidity_or_default T H)) eqn:EH; [discriminate|].
  intros _. repeat split; apply has_negative_false; assumption.
Qed.

Lemma same_length_all n ls :
  same_length n ls = true -> Forall (fun m => m = n) ls.
Proof.
  unfold same_length. rewrite forallb_forall, Forall_forall.
  intros F m Hm. symmetry. apply Nat.eqb_eq. apply F. exact Hm.
Qed.

(** What a table that was built consists of. *)
Lemma process_block_ok data df :
  process_block data = Ok df ->
  exists w rho,
    add (square (v100 data)) (square (u100 data)) = Returns w /\
    first_cells (np_sqrt w) = Ok (col_ws_100m df) /\
    first_cells (u100 data) = Ok (col_u_100 df) /\
    first_cells (v100 data) = Ok (col_v_100 df) /\
    first_cells (t2m data) = Ok (col_t_2m df) /\
    first_cells (sp data) = Ok (col_surf_pres df) /\
    comprehension era_datetime (time data) = Ok (col_datetime df) /\
    Forall (fun m => m = length (col_datetime df))
      [length (col_u_100 df); length (col_v_100 df); length (col_t_2m df);
       length (col_surf_pres df); length (col_ws_100m df)] /\
    call (Float64 (col_t_2m df)) (Float64 (col_surf_pres df)) None
    = Returns rho /\
    col_dens_100m df = astype_float rho.
Proof.
  unfold process_block.
  destruct (add (square (v100 data)) (square (u100 data))) as [w|e];
    cbn [result_bind of_outcome outcome_map]; [|discriminate].
  destruct (first_cells (np_sqrt w)) as [ws|e] eqn:EW;
    cbn [result_bind]; [|discriminate].
  destruct (first_cells (u100 data)) as [u|e];
    cbn [result_bind]; [|discriminate].
  destruct (first_cells (v100 data)) as [v|e];
    cbn [result_bind]; [|discriminate].
  destruct (first_cells (t2m data)) as [t|e];
    cbn [result_bind]; [|discriminate].
  destruct (first_cells (sp data)) as [p|e];
    cbn [result_bind]; [|discriminate].
  destruct (comprehension era_datetime (time data)) as [dts|e];
    cbn [result_bind]; [|discriminate].
  destruct (same_length (length dts)
              [length u; length v; length t; length p; length ws]) eqn:EL;
    [|discriminate].
  destruct (call (Float64 t) (Float64 p) None) as [rho|e] eqn:EC;
    cbn [result_bind of_outcome]; [|discriminate].
  intros E. apply Ok_injective in E. subst df.
  cbn [col_datetime col_u_100 col_v_100 col_t_2m col_surf_pres col_ws_100m
       col_dens_100m].
  exists w, rho. repeat split; try reflexivity.
  - exact EW.
  - apply same_length_all in EL. exact EL.
  - exact EC.
Qed.

(** The columns of a table that was built have one length. *)
Lemma process_block_lengths data df :
  process_block data = Ok df ->
  let n := length (col_datetime df) in
  length (col_u_100 df) = n /\ length (col_v_100 df) = n /\
  length (col_t_2m df) = n /\ length (col_surf_pres df) = n /\
  length (col_ws_100m df) = n /\ length (col_dens_100m df) = n.
Proof.
  intros E. cbv zeta.
  destruct (process_block_ok data df E)
    as [w [rho [_ [_ [_ [_ [_ [_ [_ [L [C D]]]]]]]]]]].
  inversion L as [|? ? Lu L1]; subst. inversion L1 as [|? ? Lv L2]; subst.
  inversion L2 as [|? ? Lt L3]; subst. inversion L3 as [|? ? Lp L4]; subst.
  inversion L4 as [|? ? Lw _]; subst.
  repeat split; try assumption.
  destruct (call_returns_nonnegative _ _ _ _ C) as [VT [VP _]].
  destruct (call_default_aligned (Float64 (col_t_2m df))
              (Float64 (col_surf_pres df))) as [r [C' [Lr _]]];
    try assumption; [simpl; congruence|].
  rewrite C in C'. injection C' as ->. rewrite D. simpl in *. congruence.
Qed.

Lemma process_block_wind_speed data df :
  process_block data = Ok df ->
  let n := length (col_datetime df) in
  (length (col_u_100 df) = n /\ length (col_v_100 df) = n /\
   length (col_t_2m df) = n /\ length (col_surf_pres df) = n /\
   length (col_ws_100m df) = n /\ length (col_dens_100m df) = n) /\
  forall i, (i < n)%nat ->
    nth i (col_ws_100m df) 0
    = sqrt (nth i (col_v_100 df) 0 ^ 2 + nth i (col_u_100 df) 0 ^ 2).
Proof.
  intros E. cbv zeta. split; [exact (process_block_lengths data df E)|].
  destruct (process_block_lengths data df E) as [Lu [Lv [_ [_ [Lw _]]]]].
  destruct (process_block_ok data df E)
    as [w [rho [A [W [U [V _]]]]]].
  destruct (wind_speed_cells _ _ _ _ A W) as [LW HW].
  apply first_cells_ok in U, V. destruct U as [LU HU]. destruct V as [LV HV].
  intros i Hi.
  rewrite HW by lia.
  assert (Sv : stretch (dim0 (v100 data)) i = i).
  { unfold stretch. destruct (Nat.eqb_spec (dim0 (v100 data)) 1); [lia|reflexivity]. }
  assert (Su : stretch (dim0 (u100 data)) i = i).
  { unfold stretch. destruct (Nat.eqb_spec (dim0 (u100 data)) 1); [lia|reflexivity]. }
  rewrite Sv, Su, HV, HU by lia. reflexivity.
Qed.

Lemma process_block_density data df :
  process_block data = Ok df ->
  forall i, (i < length (col_datetime df))%nat ->
    nth i (col_dens_100m df) 0
    = density (nth i (col_t_2m df) 0) (nth i (col_surf_pres df) 0) 0.5 /\
    0 <= nth i (col_t_2m df) 0 /\
    0 <= nth i (col_surf_pres df) 0.
Proof.
  intros E i Hi.
  destruct (process_block_lengths data df E) as [_ [_ [Lt [Lp _]]]].
  destruct (process_block_ok data df E)
    as [w [rho [_ [_ [_ [_ [_ [_ [_ [_ [C D]]]]]]]]]]].
  destruct (call_returns_nonnegative _ _ _ _ C) as [VT [VP _]].
  destruct (call_default_aligned (Float64 (col_t_2m df))
              (Float64 (col_surf_pres df))) as [r [C' [Lr Hn]]];
    try assumption; [simpl; congruence|].
  rewrite C in C'. injection C' as ->. rewrite D. simpl in *.
  split; [apply Hn; lia|].
  unfold nonnegative in VT, VP. simpl in VT, VP.
  rewrite Forall_forall in VT, VP.
  split; [apply VT|apply VP]; apply nth_In; lia.
Qed.

(** X12.  In the table of one file every wind speed is the length of the
    wind vector of its own row: [ws_100m[i] = sqrt(v_100[i]^2 + u_100[i]^2)],
    and all seven columns have one length. *)
Theorem block_wind_speed data df :
  process_block data = Ok df ->
  let n := length (col_datetime df) in
  (length (col_u_100 df) = n /\ length (col_v_100 df) = n /\
   length (col_t_2m df) = n /\ length (col_surf_pres df) = n /\
   length (col_ws_100m df) = n /\ length (col_dens_100m df) = n) /\
  forall i, (i < n)%nat ->
    nth i (col_ws_100m df) 0
    = sqrt (nth i (col_v_100 df) 0 ^ 2 + nth i (col_u_100 df) 0 ^ 2).
Proof. exact (process_block_wind_speed data df). Qed.

(** X13.  In the table of one file every density is that of the temperature
    and the pressure of its own row at humidity 0.5, and no temperature or
    pressure in the table is negative. *)
Theorem block_density data df :
  process_block data = Ok df ->
  forall i, (i < length (col_datetime df))%nat ->
    nth i (col_dens_100m df) 0
    = density (nth i (col_t_2m df) 0) (nth i (col_surf_pres df) 0) 0.5 /\
    0 <= nth i (col_t_2m df) 0 /\
    0 <= nth i (col_surf_pres df) 0.
Proof. exact (process_block_density data df). Qed.

(** ** Only the first grid cell is read *)

Lemma first_cells_ext a b :
  same_first_cells a b -> first_cells a = first_cells b.
Proof.
  intros [E0 [E1 [E2 Hi]]]. unfold first_cells. rewrite E0, E1, E2.
  destruct (Nat.eqb (dim0 b) 0); [reflexivity|].
  destruct (Nat.eqb (dim1 b) 0 || Nat.eqb (dim2 b) 0); [reflexivity|].
  f_equal. apply map_ext. exact Hi.
Qed.

Lemma wind_speed_ext v u v' u' :
  same_first_cells v v' -> same_first_cells u u' ->
  match add (square v) (square u), add (square v') (square u') with
  | Returns w, Returns w' =>
      first_cells (np_sqrt w) = first_cells (np_sqrt w')
  | Raises e, Raises e' => e = e'
  | _, _ => False
  end.
Proof.
  intros [V0 [V1 [V2 Hv]]] [U0 [U1 [U2 Hu]]]. unfold add. simpl.
  rewrite V0, V1, V2, U0, U1, U2.
  destruct (broadcast_axis (dim0 v') (dim0 u')) as [n0|]; [|reflexivity].
  destruct (broadcast_axis (dim1 v') (dim1 u')) as [n1|]; [|reflexivity].
  destruct (broadcast_axis (dim2 v') (dim2 u')) as [n2|]; [|reflexivity].
  unfold first_cells. simpl.
  destruct (Nat.eqb n0 0); [reflexivity|].
  destruct (Nat.eqb n1 0 || Nat.eqb n2 0); [reflexivity|].
  f_equal. apply map_ext. intros i. rewrite !stretch_zero, Hv, Hu.
  reflexivity.
Qed.

(** X14.  Of every variable only the first grid cell of each time step
    reaches the table: two files whose variables have the same shapes and
    agree on those cells, and whose time axes agree, give the same table or
    the same exception, whatever the other cells hold. *)
Theorem only_first_cells_matter (data data' : dataset) :
  same_first_cells (u100 data) (u100 data') ->
  same_first_cells (v100 data) (v100 data') ->
  same_first_cells (t2m data) (t2m data') ->
  same_first_cells (sp data) (sp data') ->
  time data = time data' ->
  process_block data = process_block data'.
Proof.
  intros HU HV HT HP HTime. unfold process_block.
  pose proof (wind_speed_ext _ _ _ _ HV HU) as HW.
  destruct (add (square (v100 data)) (square (u100 data))) as [w|e];
    destruct (add (square (v100 data')) (square (u100 data'))) as [w'|e'];
    simpl; try contradiction; [|congruence].
  rewrite HW, (first_cells_ext _ _ HU), (first_cells_ext _ _ HV),
    (first_cells_ext _ _ HT), (first_cells_ext _ _ HP), HTime.
  reflexivity.
Qed.

(** ** The outcome on a well-formed file *)

Lemma first_cells_of_grid a :
  (1 <= dim1 a)%nat -> (1 <= dim2 a)%nat ->
  first_cells a = Ok (map (fun i => item a i 0%nat 0%nat) (seq 0 (dim0 a))).
Proof.
  intros H1 H2. unfold first_cells.
  destruct (Nat.eqb_spec (dim0 a) 0) as [E|N]; [rewrite E; reflexivity|].
  destruct (Nat.eqb_spec (dim1 a) 0); [lia|].
  destruct (Nat.eqb_spec (dim2 a) 0); [lia|]. reflexivity.
Qed.

Lemma broadcast_axis_same n : broadcast_axis n n = Some n.
Proof. unfold broadcast_axis. rewrite Nat.eqb_refl. reflexivity. Qed.

Lemma cells_nth (a : variable3) i :
  (i < dim0 a)%nat ->
  nth i (map (fun i => item a i 0%nat 0%nat) (seq 0 (dim0 a))) 0
  = item a i 0%nat 0%nat.
Proof.
  intros Hi.
  rewrite (nth_indep _ 0 (item a 0%nat 0%nat 0%nat))
    by (rewrite length_map, length_seq; exact Hi).
  change (item a 0%nat 0%nat 0%nat)
    with ((fun i => item a i 0%nat 0%nat) 0%nat).
  rewrite map_nth, seq_nth by exact Hi. reflexivity.
Qed.

Lemma process_block_well_formed (data : dataset) (n : nat) :
  well_formed data n ->
  ((exists i, (i < n)%nat /\
              (item (t2m data) i 0%nat 0%nat < 0 \/
               item (sp data) i 0%nat 0%nat < 0)) ->
   process_block data = Fail (Raised InvalidInputError)) /\
  ((forall i, (i < n)%nat ->
              0 <= item (t2m data) i 0%nat 0%nat /\
              0 <= item (sp data) i 0%nat 0%nat) ->
   exists df, process_block data = Ok df /\ length (col_datetime df) = n).
Proof.
  intros [HV [G1 [G2 [LT RT]]]].
  rewrite !Forall_cons_iff in HV.
  destruct HV as [[U0 _] [[V0 [V1 V2]] [[T0 [T1 T2]] [[P0 [P1 P2]] _]]]].
  assert (HD : exists dts, comprehension era_datetime (time data) = Ok dts).
  { apply comprehension_all_ok. apply Forall_impl with (2 := RT).
    intros h Hh. eexists. apply era_datetime_ok. exact Hh. }
  destruct HD as [dts HD].
  pose proof (comprehension_length _ _ _ HD) as LD.
  set (tl := map (fun i => item (t2m data) i 0%nat 0%nat)
               (seq 0 (dim0 (t2m data)))).
  set (pl := map (fun i => item (sp data) i 0%nat 0%nat)
               (seq 0 (dim0 (sp data)))).
  assert (Ltl : length tl = n)
    by (unfold tl; rewrite length_map, length_seq; exact T0).
  assert (Lpl : length pl = n)
    by (unfold pl; rewrite length_map, length_seq; exact P0).
  assert (Run : exists ul vl ws,
            process_block data
            = (dens_100m <-- of_outcome
                 (call (Float64 tl) (Float64 pl) None) ;;
               Ok {| col_datetime := dts; col_u_100 := ul; col_v_100 := vl;
                     col_t_2m := tl; col_surf_pres := pl; col_ws_100m := ws;
                     col_dens_100m := astype_float dens_100m |})).
  { unfold process_block, add. cbn [square dim0 dim1 dim2].
    rewrite V0, U0, V1, V2, !broadcast_axis_same.
    cbn [of_outcome outcome_map result_bind].
    rewrite first_cells_of_grid by (cbn [np_sqrt dim1 dim2]; lia).
    cbn [result_bind np_sqrt dim0].
    rewrite (first_cells_of_grid (u100 data)) by lia. cbn [result_bind].
    rewrite (first_cells_of_grid (v100 data)) by lia. cbn [result_bind].
    rewrite (first_cells_of_grid (t2m data)) by lia. cbn [result_bind].
    rewrite (first_cells_of_grid (sp data)) by lia. cbn [result_bind].
    rewrite HD. cbn [result_bind]. fold tl pl.
    assert (SL : forall l : list nat,
               Forall (fun m => m = length dts) l ->
               same_length (length dts) l = true).
    { intros l Hl. unfold same_length. apply forallb_forall.
      rewrite Forall_forall in Hl. intros m Hm. apply Nat.eqb_eq.
      symmetry. apply Hl. exact Hm. }
    rewrite SL.
    - eexists. eexists. eexists. reflexivity.
    - repeat constructor; rewrite ?length_map, ?length_seq; try lia;
        fold tl; fold pl; lia. }
  destruct Run as [ul [vl [ws Run]]].
  split.
  - intros [i [Hi Hneg]]. rewrite Run.
    assert (C : call (Float64 tl) (Float64 pl) None = Raises InvalidInputError).
    { rewrite call_value. unfold checked_rho.
      assert (N : has_negative (Float64 tl) || has_negative (Float64 pl) = true).
      { apply orb_true_iff. destruct Hneg as [Hneg|Hneg]; [left|right];
          apply has_negative_iff; unfold some_negative;
          cbn [astype_float]; apply Exists_exists; eexists;
          (split; [|exact Hneg]).
        - unfold tl. rewrite <- (cells_nth (t2m data) i) by lia.
          apply nth_In. rewrite length_map, length_seq. lia.
        - unfold pl. rewrite <- (cells_nth (sp data) i) by lia.
          apply nth_In. rewrite length_map, length_seq. lia. }
      rewrite N. reflexivity. }
    rewrite C. reflexivity.
  - intros Hall. rewrite Run.
    destruct (call_default_aligned (Float64 tl) (Float64 pl))
      as [rho [C _]].
    + cbn [shape0]. congruence.
    + unfold nonnegative. cbn [astype_float]. apply Forall_forall.
      intros x Hx. unfold tl in Hx. apply in_map_iff in Hx.
      destruct Hx as [i [<- Hi]]. apply in_seq in Hi. apply Hall. lia.
    + unfold nonnegative. cbn [astype_float]. apply Forall_forall.
      intros x Hx. unfold pl in Hx. apply in_map_iff in Hx.
      destruct Hx as [i [<- Hi]]. apply in_seq in Hi. apply Hall. lia.
    + rewrite C. cbn [of_outcome result_bind]. eexists.
      split; [reflexivity|]. cbn [col_datetime]. lia.
Qed.

(** X15.  On a well-formed file the loop body fails exactly when the first
    cell of some time step holds a negative temperature or pressure, and it
    fails with [InvalidInputError]; otherwise it builds a table with one row
    per time step. *)
Theorem block_outcome (data : dataset) (n : nat) :
  well_formed data n ->
  ((exists i, (i < n)%nat /\
              (item (t2m data) i 0%nat 0%nat < 0 \/
               item (sp data) i 0%nat 0%nat < 0)) ->
   process_block data = Fail (Raised InvalidInputError)) /\
  ((forall i, (i < n)%nat ->
              0 <= item (t2m data) i 0%nat 0%nat /\
              0 <= item (sp data) i 0%nat 0%nat) ->
   exists df, process_block data = Ok df /\ length (col_datetime df) = n).
Proof. exact (process_block_well_formed data n). Qed.

(** ** The loop over the files *)

Lemma consistent_empty : consistent empty_frame.
Proof.
  unfold consistent, empty_frame. simpl. split; [tauto|]. intros i Hi. lia.
Qed.

Lemma consistent_block data df : process_block data = Ok df -> consistent df.
Proof.
  intros E. unfold consistent. cbv zeta.
  destruct (process_block_wind_speed data df E) as [L W].
  split; [exact L|]. intros i Hi. split; [exact (W i Hi)|].
  exact (process_block_density data df E i Hi).
Qed.

Lemma nth_app_rows (a b : list R) n i :
  length a = n ->
  nth i (a ++ b) 0 = if Nat.ltb i n then nth i a 0 else nth (i - n) b 0.
Proof.
  intros <-. destruct (Nat.ltb_spec i (length a)).
  - apply app_nth1. assumption.
  - apply app_nth2. lia.
Qed.

Lemma consistent_concat a b :
  consistent a -> consistent b -> consistent (concat a b).
Proof.
  unfold consistent. cbv zeta.
  intros [[Au [Av [At [Ap [Aw Ad]]]]] HA] [[Bu [Bv [Bt [Bp [Bw Bd]]]]] HB].
  simpl. rewrite !length_app. split; [lia|].
  intros i Hi.
  rewrite (nth_app_rows _ _ _ i Aw), (nth_app_rows _ _ _ i Av),
    (nth_app_rows _ _ _ i Au), (nth_app_rows _ _ _ i Ad),
    (nth_app_rows _ _ _ i At), (nth_app_rows _ _ _ i Ap).
  destruct (Nat.ltb_spec i (length (col_datetime a))).
  - apply HA. assumption.
  - apply HB. lia.
Qed.

(** X17.  Every row of the table the script writes is consistent: its wind
    speed is [sqrt(v_100^2 + u_100^2)] of the row, its density is that of
    the temperature and pressure of the row at humidity 0.5, neither of the
    two is negative, and all columns have one length. *)
Theorem written_table_consistent (files : list dataset) (df : DataFrame) :
  process_blocks files empty_frame = Ok df -> consistent df.
Proof.
  assert (G : forall r, consistent r ->
                process_blocks files r = Ok df -> consistent df).
  { induction files as [|data files IH]; intros r Hr; simpl.
    - intros E. injection E as <-. exact Hr.
    - destruct (process_block data) as [d|e] eqn:E; simpl; [|discriminate].
      apply IH. apply consistent_concat; [exact Hr|].
      exact (consistent_block data d E). }
  apply G. exact consistent_empty.
Qed.

(** * The further properties at concrete inputs *)

Lemma negative_run_example :
  fst (compute_air_density 0%nat 1%nat None
         [Float64 [-1]; Float64 [101325]])
  = Raises InvalidInputError.
Proof.
  rewrite compute_air_density_exact
    by (unfold valid_opt_ref, valid_ref; simpl; auto; lia).
  cbv zeta.
  assert (N : has_negative (deref [Float64 [-1]; Float64 [101325]] 0%nat)
              = true).
  { apply has_negative_iff. unfold some_negative. simpl. constructor. lra. }
  rewrite N. reflexivity.
Qed.

Lemma failed_check_allocates_nothing_witness :
  snd (compute_air_density 0%nat 1%nat None
         [Float64 [-1]; Float64 [101325]])
  = [Float64 [-1]; Float64 [101325]]
    ++ default_allocation [Float64 [-1]; Float64 [101325]] 0%nat None.
Proof.
  apply (failed_check_allocates_nothing
           [Float64 [-1]; Float64 [101325]] 0%nat 1%nat None);
    [unfold valid_ref; simpl; lia
    |unfold valid_ref; simpl; lia
    |exact I
    |exact negative_run_example].
Defined.

Lemma valid_run_example :
  fst (compute_air_density 0%nat 1%nat (Some 2%nat)
         [Float64 [288.15]; Float64 [101325]; Float64 [0.5]])
  = Returns 5%nat.
Proof.
  rewrite compute_air_density_exact
    by (unfold valid_opt_ref, valid_ref; simpl; auto; lia).
  cbv zeta. unfold humidity_in. simpl option_map. simpl humidity_or_default.
  assert (N : forall x, 0 <= x -> has_negative (Float64 [x]) = false).
  { intros x Hx. apply has_negative_false. unfold nonnegative. simpl.
    constructor; [exact Hx|constructor]. }
  change (deref [Float64 [288.15]; Float64 [101325]; Float64 [0.5]] 0%nat)
    with (Float64 [288.15]).
  change (deref [Float64 [288.15]; Float64 [101325]; Float64 [0.5]] 1%nat)
    with (Float64 [101325]).
  change (deref [Float64 [288.15]; Float64 [101325]; Float64 [0.5]] 2%nat)
    with (Float64 [0.5]).
  rewrite !N by lra. reflexivity.
Qed.

Lemma returned_array_is_fresh_witness :
  ~ valid_ref [Float64 [288.15]; Float64 [101325]; Float64 [0.5]] 5%nat /\
  5%nat <> 0%nat /\ 5%nat <> 1%nat /\ Some 2%nat <> Some 5%nat /\
  exists rho,
    deref (snd (compute_air_density 0%nat 1%nat (Some 2%nat)
                  [Float64 [288.15]; Float64 [101325]; Float64 [0.5]]))
      5%nat
    = Float64 rho.
Proof.
  apply (returned_array_is_fresh
           [Float64 [288.15]; Float64 [101325]; Float64 [0.5]]
           0%nat 1%nat (Some 2%nat) 5%nat);
    [unfold valid_ref; simpl; lia
    |unfold valid_ref; simpl; lia
    |unfold valid_opt_ref, valid_ref; simpl; lia
    |exact valid_run_example].
Defined.

Ltac show_nonnegative :=
  unfold nonnegative; simpl; repeat (constructor; try lra).

Lemma outcome_by_lengths_witness :
  exists rho,
    call (Float64 [280; 285; 290]) (Float64 [100000]) None
    = Returns (Float64 rho) /\
    length rho = 3%nat.
Proof.
  apply (proj1 (outcome_by_lengths
                  (Float64 [280; 285; 290]) (Float64 [100000]) None
                  ltac:(show_nonnegative) ltac:(show_nonnegative)
                  ltac:(show_nonnegative))).
  unfold compatible. simpl. auto.
Defined.

Lemma default_humidity_density_witness :
  exists rho,
    call (Float64 [280; 290]) (Float64 [100000; 101325]) None
    = Returns (Float64 rho) /\
    length rho = 2%nat /\
    forall i, (i < 2)%nat ->
      nth i rho 0
      = density (nth i [280; 290] 0) (nth i [100000; 101325] 0) 0.5.
Proof.
  apply (default_humidity_density
           (Float64 [280; 290]) (Float64 [100000; 101325]));
    [reflexivity|show_nonnegative|show_nonnegative].
Defined.

Lemma single_temperature_is_stretched_witness :
  exists rho,
    call (Float64 [288.15]) (Float64 [100000; 101325; 90000]) None
    = Returns (Float64 rho) /\
    length rho = 3%nat /\
    forall i, (i < 3)%nat ->
      nth i rho 0 = density 288.15 (nth i [100000; 101325; 90000] 0) 0.5.
Proof.
  apply (single_temperature_is_stretched
           (Float64 [288.15]) (Float64 [100000; 101325; 90000]) None
           288.15 0.5);
    [reflexivity|reflexivity|lra|lra|show_nonnegative].
Defined.

Lemma density_positive_for_surface_weather_witness :
  exists rho,
    call (Float64 [288.15]) (Float64 [101325]) None = Returns (Float64 rho) /\
    0 < nth 0 rho 0.
Proof.
  apply (density_positive_for_surface_weather
           (Float64 [288.15]) (Float64 [101325]) None 0%nat);
    try reflexivity; try show_nonnegative; simpl; try lia; lra.
Defined.

Lemma era_datetime_range_witness :
  era_datetime 1000000
  = Ok {| ordinal := (693596 + 1000000 / 24)%Z;
          second := (3600 * (1000000 mod 24))%Z |}.
Proof.
  apply (proj1 (era_datetime_range 1000000)). lia.
Defined.

Lemma era_datetime_increasing_witness :
  datetime_lt {| ordinal := 693596; second := 82800 |}
              {| ordinal := 693597; second := 0 |}.
Proof.
  apply (era_datetime_increasing 23 24); [reflexivity|reflexivity|lia].
Defined.

Lemma example_file_well_formed : well_formed example_file 2.
Proof.
  unfold well_formed, example_file. simpl.
  split; [repeat constructor|].
  split; [lia|]. split; [lia|]. split; [reflexivity|].
  repeat constructor; lia.
Qed.

Lemma example_file_first_cells :
  forall i, (i < 2)%nat ->
    0 <= item (t2m example_file) i 0%nat 0%nat /\
    0 <= item (sp example_file) i 0%nat 0%nat.
Proof. intros i _. simpl. split; lra. Qed.

Lemma example_file_table :
  exists df, process_block example_file = Ok df /\
             length (col_datetime df) = 2%nat.
Proof.
  exact (proj2 (process_block_well_formed example_file 2
                  example_file_well_formed) example_file_first_cells).
Qed.

Lemma block_wind_speed_witness :
  exists df,
    process_block example_file = Ok df /\
    (length (col_u_100 df) = length (col_datetime df) /\
     length (col_v_100 df) = length (col_datetime df) /\
     length (col_t_2m df) = length (col_datetime df) /\
     length (col_surf_pres df) = length (col_datetime df) /\
     length (col_ws_100m df) = length (col_datetime df) /\
     length (col_dens_100m df) = length (col_datetime df)) /\
    forall i, (i < length (col_datetime df))%nat ->
      nth i (col_ws_100m df) 0
      = sqrt (nth i (col_v_100 df) 0 ^ 2 + nth i (col_u_100 df) 0 ^ 2).
Proof.
  destruct example_file_table as [df [E _]].
  exists df. split; [exact E|].
  exact (block_wind_speed example_file df E).
Defined.

Lemma block_density_witness :
  exists df,
    process_block example_file = Ok df /\
    forall i, (i < length (col_datetime df))%nat ->
      nth i (col_dens_100m df) 0
      = density (nth i (col_t_2m df) 0) (nth i (col_surf_pres df) 0) 0.5 /\
      0 <= nth i (col_t_2m df) 0 /\
      0 <= nth i (col_surf_pres df) 0.
Proof.
  destruct example_file_table as [df [E _]].
  exists df. split; [exact E|].
  exact (block_density example_file df E).
Defined.

Lemma only_first_cells_matter_witness :
  process_block example_file = process_block example_file_other_cells.
Proof.
  apply (only_first_cells_matter example_file example_file_other_cells);
    try reflexivity;
    unfold same_first_cells; simpl; repeat split; reflexivity.
Defined.

Lemma block_outcome_witness :
  exists df, process_block example_file = Ok df /\
             length (col_datetime df) = 2%nat.
Proof.
  apply (proj2 (block_outcome example_file 2 example_file_well_formed)).
  exact example_file_first_cells.
Defined.

Lemma written_table_consistent_witness :
  exists df,
    process_blocks [example_file] empty_frame = Ok df /\ consistent df.
Proof.
  destruct example_file_table as [d [E _]].
  assert (R : process_blocks [example_file] empty_frame
              = Ok (concat empty_frame d))
    by (simpl; rewrite E; reflexivity).
  exists (concat empty_frame d). split; [exact R|].
  exact (written_table_consistent [example_file] (concat empty_frame d) R).
Defined.

(** * Conversion of the inputs, monotonicity and lengths *)

(** C8, as stated, fails for the humidity.  After a call on three integer
    arrays the store holds the float copies of the temperature and of the
    pressure that line 40 makes, and no float copy of the humidity: line 44
    reads the integer array itself. *)
Lemma humidity_is_not_converted :
  let s := [Int64 [300%Z]; Int64 [100000%Z]; Int64 [0%Z]] in
  let s' := snd (compute_air_density 0%nat 1%nat (Some 2%nat) s) in
  In (Float64 (astype_float (Int64 [300%Z]))) s' /\
  In (Float64 (astype_float (Int64 [100000%Z]))) s' /\
  ~ In (Float64 (astype_float (Int64 [0%Z]))) s'.
Proof.
  cbv zeta.
  rewrite compute_air_density_exact
    by (unfold valid_opt_ref, valid_ref; simpl; auto; lia).
  cbv zeta. unfold humidity_in, default_allocation.
  cbn [option_map humidity_or_default].
  change (deref [Int64 [300%Z]; Int64 [100000%Z]; Int64 [0%Z]] 0%nat)
    with (Int64 [300%Z]).
  change (deref [Int64 [300%Z]; Int64 [100000%Z]; Int64 [0%Z]] 1%nat)
    with (Int64 [100000%Z]).
  change (deref [Int64 [300%Z]; Int64 [100000%Z]; Int64 [0%Z]] 2%nat)
    with (Int64 [0%Z]).
  assert (N : forall z, (0 <= z)%Z -> has_negative (Int64 [z]) = false).
  { intros z Hz. apply has_negative_false. unfold nonnegative.
    cbn [astype_float map]. constructor; [apply IZR_le; exact Hz|constructor]. }
  rewrite !N by lia. cbn [orb].
  destruct (rho_expr_aligned (astype_float (Int64 [300%Z]))
              (astype_float (Int64 [100000%Z])) (Int64 [0%Z])
              eq_refl eq_refl) as [rho [E [L Hn]]].
  rewrite E. cbn [snd app astype_float map] in *.
  destruct rho as [|d [|d' rho]]; try discriminate.
  specialize (Hn 0%nat ltac:(simpl; lia)). cbn [nth] in Hn.
  rewrite density_dry in Hn.
  assert (Hd : 0 < d).
  { rewrite Hn. unfold R_const. apply Rdiv_lt_0_compat; lra. }
  split; [right; right; right; left; reflexivity|].
  split; [right; right; right; right; left; reflexivity|].
  intros [F|[F|[F|[F|[F|[F|[]]]]]]]; try discriminate.
  - injection F as F. lra.
  - injection F as F. lra.
  - injection F as F. lra.
Qed.

(** C8, as amended.  Temperature and pressure are converted to float by
    line 40, the humidity is not: a successful call on arrays of one length
    adds to the store the float copies of the temperature and of the
    pressure and the result, nothing else.  Integer values nevertheless
    never meet an integer division: the result is the density of the float
    images of the three arrays, sample by sample, and is what the call on
    the float-valued arrays returns. *)
Theorem inputs_converted_or_promoted (s : store) (t p h : ref) :
  valid_ref s t -> valid_ref s p -> valid_ref s h ->
  shape0 (deref s p) = shape0 (deref s t) ->
  shape0 (deref s h) = shape0 (deref s t) ->
  nonnegative (deref s t) -> nonnegative (deref s p) ->
  nonnegative (deref s h) ->
  exists rho,
    compute_air_density t p (Some h) s
    = (Returns (length s + 2)%nat,
       s ++ [Float64 (astype_float (deref s t));
             Float64 (astype_float (deref s p)); Float64 rho]) /\
    length rho = shape0 (deref s t) /\
    (forall i, (i < shape0 (deref s t))%nat ->
       nth i rho 0
       = density (nth i (astype_float (deref s t)) 0)
           (nth i (astype_float (deref s p)) 0)
           (nth i (astype_float (deref s h)) 0)) /\
    call (deref s t) (deref s p) (Some (deref s h))
    = call (Float64 (astype_float (deref s t)))
           (Float64 (astype_float (deref s p)))
           (Some (Float64 (astype_float (deref s h)))).
Proof.
  intros Ht Hp Hh EP EH VT VP VH.
  rewrite (compute_air_density_exact s t p (Some h) Ht Hp Hh). cbv zeta.
  unfold humidity_in, default_allocation.
  cbn [option_map humidity_or_default].
  apply has_negative_false in VT, VP, VH. rewrite VT, VP, VH. cbn [orb].
  rewrite <- (astype_float_length (deref s t)) in EP, EH.
  rewrite <- (astype_float_length (deref s p)) in EP.
  destruct (rho_expr_aligned _ _ (deref s h) EP EH) as [rho [E [L Hn]]].
  rewrite E. exists rho. cbn [length app].
  rewrite Nat.add_0_r. rewrite <- (astype_float_length (deref s t)).
  split; [reflexivity|]. split; [exact L|]. split; [exact Hn|].
  exact (call_on_float_images (deref s t) (deref s p) (Some (deref s h))).
Qed.



(** C10, as stated, fails: no value is negative and the call raises, in
    numpy's broadcasting of line 44, because the humidity has two elements
    and the other arrays three. *)
Lemma nonnegative_humidity_can_raise :
  nonnegative (Float64 [280; 285; 290]) /\
  nonnegative (Float64 [100000; 100000; 100000]) /\
  nonnegative (Float64 [0.5; 0.5]) /\
  call (Float64 [280; 285; 290]) (Float64 [100000; 100000; 100000])
       (Some (Float64 [0.5; 0.5]))
  = Raises BroadcastError.
Proof.
  assert (VT : nonnegative (Float64 [280; 285; 290]))
    by (unfold nonnegative; simpl; repeat (constructor; try lra)).
  assert (VP : nonnegative (Float64 [100000; 100000; 100000]))
    by (unfold nonnegative; simpl; repeat (constructor; try lra)).
  assert (VH : nonnegative (Float64 [0.5; 0.5]))
    by (unfold nonnegative; simpl; repeat (constructor; try lra)).
  repeat split; try assumption.
  rewrite call_value. cbn [humidity_or_default].
  rewrite checked_rho_valid by assumption. reflexivity.
Qed.

(** C10, as amended.  The function never validates the length of a
    supplied humidity.  Its own error, [InvalidInputError], is raised on
    negative values only, whatever the lengths; a humidity array of one
    nonnegative element is silently stretched over all samples; and a
    nonnegative humidity whose length is neither one nor that of the other
    arrays (which have more than one sample) is rejected only by numpy's
    broadcasting in line 44. *)
Theorem humidity_length_left_to_broadcasting :
  (forall (T P H : ndarray) (h0 : R),
     astype_float H = [h0] -> 0 <= h0 ->
     shape0 P = shape0 T -> nonnegative T -> nonnegative P ->
     exists rho,
       call T P (Some H) = Returns (Float64 rho) /\
       length rho = shape0 T /\
       forall i, (i < shape0 T)%nat ->
         nth i rho 0
         = density (nth i (astype_float T) 0) (nth i (astype_float P) 0) h0) /\
  (forall (T P : ndarray) (H : option ndarray),
     call T P H = Raises InvalidInputError ->
     some_negative T \/ some_negative P \/
     exists a, H = Some a /\ some_negative a) /\
  (forall (T P H : ndarray),
     nonnegative T -> nonnegative P -> nonnegative H ->
     shape0 P = shape0 T ->
     shape0 H <> shape0 T -> shape0 H <> 1%nat -> shape0 T <> 1%nat ->
     call T P (Some H) = Raises BroadcastError).
Proof.
  split; [|split].
  - intros T P H h0 EH Hh0 EP VT VP.
    assert (VH : nonnegative H).
    { unfold nonnegative. rewrite EH. constructor; [exact Hh0|constructor]. }
    rewrite call_value. simpl humidity_or_default.
    rewrite checked_rho_valid by assumption.
    rewrite <- (astype_float_length T) in *.
    rewrite <- (astype_float_length P) in EP.
    destruct (rho_expr_stretched _ _ _ h0 EP EH) as [rho [E [L Hn]]].
    exists rho. rewrite E. simpl. auto.
  - intros T P H. rewrite call_value. intros E.
    assert (E' : checked_rho T P (humidity_or_default T H)
                 = Raises InvalidInputError).
    { destruct (checked_rho T P (humidity_or_default T H)); simpl in E;
        [discriminate|congruence]. }
    apply checked_rho_invalid in E'.
    rewrite !orb_true_iff, !has_negative_iff in E'.
    destruct E' as [[HT|HP]|HH]; auto. destruct H as [a|].
    + right; right. exists a. split; [reflexivity|exact HH].
    + apply has_negative_iff in HH. simpl in HH.
      rewrite default_humidity_nonnegative in HH. discriminate.
  - intros T P H VT VP VH EP N1 N2 N3.
    rewrite call_value. cbn [humidity_or_default].
    rewrite checked_rho_valid by assumption.
    unfold rho_expr, multiply.
    destruct (broadcast_cases Rmult (astype_float H)
                (scalar_mul 0.0000205
                   (np_exp (scalar_mul 0.0631846 (astype_float T)))))
      as [[wet [_ [_ C]]]|[E _]].
    + exfalso. unfold compatible in C.
      rewrite vapor_length, !astype_float_length in C. lia.
    + rewrite E. reflexivity.
Qed.

(** * Order properties, within bounds that keep the rounded computation
      finite *)






(** X8.  The check of line 36 does not keep the result above zero: for a
    temperature between 1 K and 10000 K and a humidity between 10^-6 and 1,
    a pressure of at most [0.37 * phi * (0.0000205 * exp(0.0631846 * T))]
    gives a negative density.  The factor of the exact threshold is
    [1 - 287.05 / 461.5], about 0.378; the margin to 0.37 exceeds the
    rounding of the computation by many orders of magnitude. *)
Theorem density_negative_below_vapor_pressure (T P : ndarray)
    (H : option ndarray) (i : nat) :
  shape0 P = shape0 T -> shape0 (humidity_or_default T H) = shape0 T ->
  nonnegative T -> nonnegative P -> nonnegative (humidity_or_default T H) ->
  (i < shape0 T)%nat ->
  1 <= nth i (astype_float T) 0 <= 10000 ->
  0.000001 <= nth i (astype_float (humidity_or_default T H)) 0 <= 1 ->
  nth i (astype_float P) 0
  <= 0.37 * nth i (astype_float (humidity_or_default T H)) 0
     * (0.0000205 * exp (0.0631846 * nth i (astype_float T) 0)) ->
  exists rho,
    call T P H = Returns (Float64 rho) /\ nth i rho 0 < 0.
Proof.
  intros EP EH VT VP VH Hi HT Hphi HP.
  destruct (call_aligned T P H EP EH VT VP VH) as [rho [C [_ N]]].
  exists rho. split; [exact C|]. rewrite (N i Hi).
  apply density_sign; [lra|].
  set (phi := nth i (astype_float (humidity_or_default T H)) 0) in *.
  pose proof (vapor_positive (nth i (astype_float T) 0)) as Hv.
  set (v := 0.0000205 * exp (0.0631846 * nth i (astype_float T) 0)) in *.
  assert (Hpv : 0 < phi * v) by (apply Rmult_lt_0_compat; lra).
  assert (Hg : 0.377 < 1 - 287.05 / 461.5).
  { apply Rmult_lt_reg_r with 461.5; [lra|]. field_simplify; lra. }
  apply Rle_lt_trans with (0.37 * phi * v); [exact HP|].
  rewrite (Rmult_assoc 0.37 phi v).
  rewrite (Rmult_comm (phi * v) (1 - 287.05 / 461.5)).
  apply Rmult_lt_compat_r; [exact Hpv|lra].
Qed.

(** * These statements at concrete inputs *)

Lemma inputs_converted_or_promoted_witness :
  exists rho,
    compute_air_density 0%nat 1%nat (Some 2%nat)
      [Int64 [300; 280]%Z; Int64 [100000; 90000]%Z; Int64 [0; 1]%Z]
    = (Returns 5%nat,
       [Int64 [300; 280]%Z; Int64 [100000; 90000]%Z; Int64 [0; 1]%Z]
       ++ [Float64 [300; 280]; Float64 [100000; 90000]; Float64 rho]) /\
    length rho = 2%nat /\
    (forall i, (i < 2)%nat ->
       nth i rho 0
       = density (nth i [300; 280] 0) (nth i [100000; 90000] 0)
           (nth i [0; 1] 0)) /\
    call (Int64 [300; 280]%Z) (Int64 [100000; 90000]%Z)
         (Some (Int64 [0; 1]%Z))
    = call (Float64 [300; 280]) (Float64 [100000; 90000])
           (Some (Float64 [0; 1])).
Proof.
  apply (inputs_converted_or_promoted
           [Int64 [300; 280]%Z; Int64 [100000; 90000]%Z; Int64 [0; 1]%Z]
           0%nat 1%nat 2%nat);
    try reflexivity;
    try (unfold valid_ref; simpl; lia);
    unfold nonnegative; simpl; repeat (constructor; try lra).
Defined.


Lemma humidity_length_left_to_broadcasting_witness :
  exists rho,
    call (Float64 [280; 285; 290]) (Float64 [100000; 100000; 100000])
         (Some (Float64 [0.5])) = Returns (Float64 rho) /\
    length rho = 3%nat /\
    forall i, (i < 3)%nat ->
      nth i rho 0
      = density (nth i [280; 285; 290] 0)
          (nth i [100000; 100000; 100000] 0) 0.5.
Proof.
  apply (proj1 humidity_length_left_to_broadcasting
           (Float64 [280; 285; 290]) (Float64 [100000; 100000; 100000])
           (Float64 [0.5]) 0.5);
    try reflexivity; try show_nonnegative; lra.
Defined.



Lemma density_negative_below_vapor_pressure_witness :
  exists rho,
    call (Float64 [288.15]) (Float64 [500]) (Some (Float64 [1]))
    = Returns (Float64 rho) /\
    nth 0 rho 0 < 0.
Proof.
  apply (density_negative_below_vapor_pressure
           (Float64 [288.15]) (Float64 [500]) (Some (Float64 [1])) 0%nat);
    try reflexivity; try show_nonnegative; simpl; try lia; try lra.
  pose proof exp_at_standard_temperature as [Hlo _]. lra.
Defined.

(** * The function in binary64 arithmetic *)

Module F64Facts.
Import Stdlib.Floats.Floats.
#[local] Set Warnings "-inexact-float".
#[local] Open Scope float_scope.

(** ** Exact steps of binary64 arithmetic *)

(** Subtracting zero changes nothing, whatever [x] is. *)
Lemma sub_zero (x : float) : x - 0 = x.
Proof.
  apply Prim2SF_inj. rewrite sub_spec.
  change (Prim2SF 0) with (S754_zero false).
  destruct (Prim2SF x) as [[|]| | |]; reflexivity.
Qed.

(** Zero times a positive finite number is zero. *)
Lemma zero_mul_finite (y : float) m e :
  Prim2SF y = S754_finite false m e -> 0 * y = 0.
Proof.
  intros Hy. apply Prim2SF_inj. rewrite mul_spec, Hy. reflexivity.
Qed.

Lemma zero_mul_gap : 0 * (1 / F64.R_const - 1 / F64.Rw_const) = 0.
Proof. vm_compute. reflexivity. Qed.

Lemma zero_not_negative : (0 <? 0) = false.
Proof. vm_compute. reflexivity. Qed.

(** ** Lists *)

Lemma f64_zip_with_length f a b :
  length a = length b -> length (F64.zip_with f a b) = length a.
Proof.
  revert b; induction a as [|x a IH]; intros [|y b] E; simpl in *;
    try discriminate; auto.
Qed.

Lemma f64_broadcast_same_length f a b :
  length a = length b ->
  F64.broadcast f a b = Returns (F64.zip_with f a b).
Proof.
  intros E. unfold F64.broadcast. rewrite E, Nat.eqb_refl. reflexivity.
Qed.

Lemma no_negative_check (a : list float) :
  Forall (fun x => (x <? 0) = false) a ->
  np_any (F64.less_zero a) = false.
Proof.
  induction 1 as [|x a Hx _ IH]; [reflexivity|].
  unfold np_any, F64.less_zero in *. cbn [map existsb].
  rewrite Hx, IH. reflexivity.
Qed.

Lemma zeros_not_negative (a : list float) :
  Forall (fun x => x = 0) a -> Forall (fun x => (x <? 0) = false) a.
Proof.
  intros H. apply Forall_impl with (2 := H). intros x ->.
  exact zero_not_negative.
Qed.

(** ** Line 44 on arrays of one length *)

Lemma rho_expr_same_length libm_exp (T P H : list float) :
  length P = length T -> length H = length T ->
  F64.rho_expr libm_exp T P H
  = Returns
      (F64.zip_with mul (F64.scalar_div 1 T)
         (F64.zip_with sub (F64.div_scalar P F64.R_const)
            (F64.mul_scalar
               (F64.zip_with mul H
                  (F64.scalar_mul 0.0000205
                     (F64.np_exp libm_exp (F64.scalar_mul 0.0631846 T))))
               (1 / F64.R_const - 1 / F64.Rw_const)))).
Proof.
  intros EP EH. unfold F64.rho_expr, F64.multiply, F64.subtract.
  set (vapor := F64.scalar_mul 0.0000205
                  (F64.np_exp libm_exp (F64.scalar_mul 0.0631846 T))).
  assert (Lv : length vapor = length T)
    by (unfold vapor, F64.scalar_mul, F64.np_exp; rewrite !length_map;
        reflexivity).
  rewrite (f64_broadcast_same_length mul H vapor) by congruence.
  cbn [and_then].
  assert (Lw : length (F64.mul_scalar (F64.zip_with mul H vapor)
                         (1 / F64.R_const - 1 / F64.Rw_const)) = length T).
  { unfold F64.mul_scalar. rewrite length_map, f64_zip_with_length; congruence. }
  assert (Ld : length (F64.div_scalar P F64.R_const) = length T)
    by (unfold F64.div_scalar; rewrite length_map; exact EP).
  rewrite f64_broadcast_same_length by congruence. cbn [and_then].
  rewrite f64_broadcast_same_length; [reflexivity|].
  unfold F64.scalar_div. rewrite length_map, f64_zip_with_length; congruence.
Qed.

(** With humidity zero and no overflow of the vapour factor, line 44 gives
    the dry density of every sample, bit for bit. *)
Lemma dry_samples libm_exp (T P H : list float) :
  length P = length T -> length H = length T ->
  Forall (fun x => x = 0) H ->
  Forall (F64.vapor_finite libm_exp) T ->
  F64.zip_with mul (F64.scalar_div 1 T)
    (F64.zip_with sub (F64.div_scalar P F64.R_const)
       (F64.mul_scalar
          (F64.zip_with mul H
             (F64.scalar_mul 0.0000205
                (F64.np_exp libm_exp (F64.scalar_mul 0.0631846 T))))
          (1 / F64.R_const - 1 / F64.Rw_const)))
  = F64.zip_with F64.dry_density T P.
Proof.
  revert P H. induction T as [|t T IH]; intros [|p P] [|h H] EP EH HZ HV;
    try discriminate; [reflexivity|].
  inversion HZ as [|? ? Hh HZ']; subst.
  inversion HV as [|? ? [m [e Ht]] HV']; subst.
  cbn [F64.scalar_div F64.div_scalar F64.mul_scalar F64.scalar_mul
       F64.np_exp F64.zip_with map].
  f_equal.
  - unfold F64.dry_density.
    rewrite (zero_mul_finite _ m e Ht), zero_mul_gap, sub_zero. reflexivity.
  - apply IH; try assumption; simpl in *; congruence.
Qed.

Lemma dry_air libm_exp (T P H : list float) :
  length P = length T -> length H = length T ->
  Forall (fun x => (x <? 0) = false) T ->
  Forall (fun x => (x <? 0) = false) P ->
  Forall (fun x => x = 0) H ->
  Forall (F64.vapor_finite libm_exp) T ->
  F64.compute_air_density libm_exp T P (Some H)
  = Returns (F64.zip_with F64.dry_density T P).
Proof.
  intros EP EH VT VP HZ HV. unfold F64.compute_air_density.
  rewrite (no_negative_check T VT), (no_negative_check P VP),
    (no_negative_check H (zeros_not_negative H HZ)).
  cbn [orb].
  rewrite rho_expr_same_length by assumption.
  f_equal. apply dry_samples; assumption.
Qed.

Lemma dry_air_single libm_exp (T P : float) :
  (T <? 0) = false -> (P <? 0) = false -> F64.vapor_finite libm_exp T ->
  F64.compute_air_density libm_exp [T] [P] (Some [0])
  = Returns [F64.dry_density T P].
Proof.
  intros HT HP HV.
  apply (dry_air libm_exp [T] [P] [0]); try reflexivity;
    repeat constructor; assumption.
Qed.

Lemma returns_single_inj (x y : float) :
  @Returns (list float) [x] = Returns [y] -> x = y.
Proof. intros E. injection E. auto. Qed.

(** ** The claims that depend on rounding *)

(** C6, as amended.  With every humidity element 0 and no overflow of the
    vapour factor, the vapour term vanishes and every returned element is
    [(1 / T[i]) * (P[i] / 287.05)], bit for bit: the dry-air law
    [P / (287.05 * T)] as the program rounds it.  For [T = [250.0]],
    [P = [90000.0]], [phi = [0.0]] that value is the binary64 number
    [90000 / (287.05 * 250)], which is 1.2541 to four decimals. *)
Theorem dry_air_reduction_binary64 :
  (forall libm_exp (T P H : list float),
     length P = length T -> length H = length T ->
     Forall (fun x => (x <? 0) = false) T ->
     Forall (fun x => (x <? 0) = false) P ->
     Forall (fun x => x = 0) H ->
     Forall (F64.vapor_finite libm_exp) T ->
     F64.compute_air_density libm_exp T P (Some H)
     = Returns (F64.zip_with (fun t p => 1 / t * (p / 287.05)) T P)) /\
  (forall libm_exp,
     F64.vapor_finite libm_exp 250 ->
     F64.compute_air_density libm_exp [250] [90000] (Some [0])
     = Returns [90000 / (287.05 * 250)]) /\
  (abs (90000 / (287.05 * 250) - 1.2541) <? 0.00005) = true.
Proof.
  split; [|split].
  - intros libm_exp T P H EP EH VT VP HZ HV.
    exact (dry_air libm_exp T P H EP EH VT VP HZ HV).
  - intros libm_exp HV.
    rewrite (dry_air_single libm_exp 250 90000) by (try exact HV; reflexivity).
    vm_compute. reflexivity.
  - vm_compute. reflexivity.
Qed.

(** C6, as stated, fails: at [T = 273.15], [P = 101325], [phi = 0] the
    program returns 1.292283669944055, and [P / (287.05 * T)] is
    1.2922836699440552, whatever the exponential returns. *)
Lemma dry_air_law_not_bit_exact :
  ~ exists libm_exp,
      F64.vapor_finite libm_exp 273.15 /\
      F64.compute_air_density libm_exp [273.15] [101325] (Some [0])
      = Returns [101325 / (287.05 * 273.15)].
Proof.
  intros [libm_exp [HV E]].
  rewrite (dry_air_single libm_exp 273.15 101325) in E
    by (try exact HV; reflexivity).
  apply returns_single_inj in E.
  apply (f_equal Prim2SF) in E. vm_compute in E. discriminate E.
Qed.


(** The amended C6 at a concrete input; any function with positive finite
    values can stand for the exponential, here [1 + x]. *)
Lemma dry_air_reduction_binary64_witness :
  F64.compute_air_density (fun x => 1 + x) [273.15; 250] [101325; 90000]
    (Some [0; 0])
  = Returns (F64.zip_with (fun t p => 1 / t * (p / 287.05))
               [273.15; 250] [101325; 90000]).
Proof.
  apply (proj1 dry_air_reduction_binary64 (fun x => 1 + x)
           [273.15; 250] [101325; 90000] [0; 0]);
    try reflexivity; repeat constructor;
    eexists; eexists; vm_compute; reflexivity.
Defined.

End F64Facts.
